(** * pytest-forger: the [ptf forge] command

    A shallow embedding of [src/pytest_forger/cli.py] and of the analysis and
    generation pipeline it drives.

    - [pathlib]: the part of Python's [pathlib] the command uses.
    - [os]: a tree-shaped file system with the system calls behind
      [Path.exists], [Path.is_file], [Path.mkdir(parents=True)],
      [open(p, "w")] and reading a file.
    - [core]: [CodeAnalyzer.extract_functions] and [generate_test_content].
    - [cli]: the [forge] command itself, in a state-and-exception monad over
      the file system that also records what the run prints and which
      system calls it makes. *)

From Stdlib Require Import Ascii String.
From stdpp Require Import gmap strings list pretty sorting.

#[local] Set Warnings "-register-all".

(** ** Python exceptions *)

(** The [OSError] subclasses the modelled system calls raise.  In Python 3
    [IOError] is an alias of [OSError]. *)
Inductive os_error_kind :=
| FileNotFoundError
| FileExistsError
| NotADirectoryError
| IsADirectoryError
| PermissionError.

(** What the language's parser reports for a text it rejects. *)
Record SyntaxDiagnostic := {
  diag_msg : string;
  diag_lineno : nat;
  diag_offset : nat;
}.

(** [ParseError] is the analyzer's error for a text the parser rejects;
    [Exit] is [typer.Exit], a [RuntimeError] that carries the exit status;
    [Exception] stands for any other exception. *)
Inductive exception :=
| OSError (kind : os_error_kind) (filename : string)
| ParseError (diag : SyntaxDiagnostic)
| Exception (msg : string)
| Exit (code : Z).

(** [isinstance(e, IOError)] *)
Definition is_IOError (e : exception) : bool :=
  match e with
  | OSError _ _ => true
  | _ => false
  end.

Definition strerror (k : os_error_kind) : string :=
  match k with
  | FileNotFoundError => "[Errno 2] No such file or directory"
  | FileExistsError => "[Errno 17] File exists"
  | NotADirectoryError => "[Errno 20] Not a directory"
  | IsADirectoryError => "[Errno 21] Is a directory"
  | PermissionError => "[Errno 13] Permission denied"
  end.

(** The text of the diagnostic: message, line and column. *)
Definition diag_str (d : SyntaxDiagnostic) : string :=
  diag_msg d +:+ " (line " +:+ pretty (diag_lineno d) +:+ ", column "
    +:+ pretty (diag_offset d) +:+ ")".

(** [str(e)], as the f-strings of the command interpolate it.  An
    [OSError] shows its file name between apostrophes (Python quotes it
    with [repr], which differs for a name with an apostrophe or a
    backslash); [typer.Exit(code=n)] has no text; the text of a
    [ParseError] is the diagnostic's. *)
Definition str (e : exception) : string :=
  match e with
  | OSError k f => strerror k +:+ ": '" +:+ f +:+ "'"
  | ParseError d => diag_str d
  | Exception m => m
  | Exit _ => ""
  end.

(** ** pathlib *)
Module pathlib.

(** A path is the list of its components below the working directory,
    which is the root of the modelled tree.  Absolute paths are outside
    this model: [Path] drops a leading separator. *)
Definition path := list string.

(** The pieces of [s] between the separators. *)
Fixpoint segments (s : string) : list string :=
  match s with
  | "" => [""]
  | String c s' =>
      if Ascii.eqb c "/"%char then "" :: segments s'
      else match segments s' with
           | seg :: rest => String c seg :: rest
           | [] => [String c ""]
           end
  end.

(** [Path(s)]: empty components and ["."] components are dropped, as
    pathlib does when it parses. *)
Definition Path (s : string) : path :=
  List.filter (fun seg => negb (String.eqb seg "") && negb (String.eqb seg "."))
              (segments s).

Fixpoint join (sep : string) (l : list string) : string :=
  match l with
  | [] => ""
  | [x] => x
  | x :: l' => x +:+ sep +:+ join sep l'
  end.

(** [str(p)] *)
Definition path_str (p : path) : string :=
  match p with
  | [] => "."
  | _ => join "/" p
  end.

(** [p.absolute()], rendered, for a working directory [cwd]. *)
Definition absolute (cwd p : path) : string := "/" +:+ join "/" (cwd ++ p).

(** [p.name] *)
Definition name (p : path) : string := List.last p "".

(** [s.rfind(c)], with [None] for Python's -1. *)
Fixpoint rfind (c : Ascii.ascii) (s : string) : option nat :=
  match s with
  | "" => None
  | String a s' =>
      match rfind c s' with
      | Some i => Some (S i)
      | None => if Ascii.eqb a c then Some 0 else None
      end
  end.

(** [p.stem]: the name without its last suffix.
<<
    name = self.name
    i = name.rfind('.')
    if 0 < i < len(name) - 1: return name[:i]
    else: return name
>> *)
Definition stem (p : path) : string :=
  let nm := name p in
  match rfind "."%char nm with
  | Some i =>
      if Nat.ltb 0 i && Nat.ltb i (String.length nm - 1) then String.substring 0 i nm
      else nm
  | None => nm
  end.

(** [s] starts at the root. *)
Definition is_absolute (s : string) : bool :=
  match s with
  | String c _ => Ascii.eqb c "/"%char
  | EmptyString => false
  end.

(** Every component is an entry name: not empty, not [.], not [..]. *)
Definition normal (p : path) : bool :=
  forallb (fun c => negb (String.eqb c "") && negb (String.eqb c ".")
                    && negb (String.eqb c "..")) p.

(** [p / child] for a single-component child. *)
Definition div (p : path) (child : string) : path := p ++ [child].

End pathlib.

Abbreviation path := pathlib.path.

(** ** The file system *)
Module os.

(** A file with its permission bits and text, or a directory with its
    write permission and entries. *)
Inductive node :=
| File (readable writable : bool) (content : string)
| Dir (writable : bool) (entries : gmap string node).

(** Path resolution from a node.  A component below a file does not
    resolve.  Components are entry names: the tree has no links, and [..]
    is not interpreted, so the model speaks for paths that are
    [pathlib.normal]. *)
Fixpoint lookup (n : node) (p : path) : option node :=
  match p with
  | [] => Some n
  | c :: p' =>
      match n with
      | Dir _ es =>
          match es !! c with
          | Some child => lookup child p'
          | None => None
          end
      | File _ _ _ => None
      end
  end.

(** [Path.exists()]: resolution errors (a missing component, a file
    used as a directory) read as "does not exist".  The errors that
    [exists()] lets through (a name that is too long, say) are not
    modelled. *)
Definition path_exists (root : node) (p : path) : bool :=
  match lookup root p with
  | Some _ => true
  | None => false
  end.

(** [Path.is_file()] *)
Definition is_file (root : node) (p : path) : bool :=
  match lookup root p with
  | Some (File _ _ _) => true
  | _ => false
  end.

(** A chain of new, writable directories. *)
Fixpoint fresh_dirs (p : path) : node :=
  match p with
  | [] => Dir true ∅
  | c :: p' => Dir true {[ c := fresh_dirs p' ]}
  end.

(** [Path.mkdir(parents=True)] on [pre / p], seen from the node that
    [pre] resolves to.  Existing directories on the way are entered, the
    missing tail is created; the target itself must not exist.  The errors
    modelled (a regular file on the way, no write permission where the
    first missing directory goes) arise before anything is made; errors
    that arise after some parents were made are not modelled. *)
Fixpoint mkdir_parents (pre : path) (n : node) (p : path) : exception + node :=
  match p with
  | [] => inl (OSError FileExistsError (pathlib.path_str pre))
  | c :: p' =>
      match n with
      | File _ _ _ => inl (OSError NotADirectoryError (pathlib.path_str (pre ++ p)))
      | Dir w es =>
          match es !! c with
          | Some child =>
              match mkdir_parents (pre ++ [c]) child p' with
              | inl e => inl e
              | inr child' => inr (Dir w (<[c := child']> es))
              end
          | None =>
              if w then inr (Dir w (<[c := fresh_dirs p']> es))
              else inl (OSError PermissionError (pathlib.path_str (pre ++ [c])))
          end
      end
  end.

(** [open(pre / p, "w")] followed by writing [text] and closing: the
    file is created or truncated. *)
Fixpoint write_text (pre : path) (n : node) (p : path) (text : string)
  : exception + node :=
  match p with
  | [] =>
      match n with
      | File r w _ =>
          if w then inr (File r w text)
          else inl (OSError PermissionError (pathlib.path_str pre))
      | Dir _ _ => inl (OSError IsADirectoryError (pathlib.path_str pre))
      end
  | c :: p' =>
      match n with
      | File _ _ _ => inl (OSError NotADirectoryError (pathlib.path_str (pre ++ p)))
      | Dir w es =>
          match es !! c with
          | Some child =>
              match write_text (pre ++ [c]) child p' text with
              | inl e => inl e
              | inr child' => inr (Dir w (<[c := child']> es))
              end
          | None =>
              match p' with
              | [] =>
                  if w then inr (Dir w (<[c := File true true text]> es))
                  else inl (OSError PermissionError (pathlib.path_str (pre ++ p)))
              | _ :: _ => inl (OSError FileNotFoundError (pathlib.path_str (pre ++ p)))
              end
          end
      end
  end.

(** Reading the whole file as text. *)
Definition read_text (root : node) (p : path) : exception + string :=
  match lookup root p with
  | Some (File r _ text) =>
      if r then inr text else inl (OSError PermissionError (pathlib.path_str p))
  | Some (Dir _ _) => inl (OSError IsADirectoryError (pathlib.path_str p))
  | None => inl (OSError FileNotFoundError (pathlib.path_str p))
  end.

End os.

(** ** The analysis and generation pipeline *)
Module core.

(** *** Data model *)

Inductive ParameterKind :=
| POSITIONAL_ONLY
| POSITIONAL_OR_KEYWORD
| VAR_POSITIONAL
| KEYWORD_ONLY
| VAR_KEYWORD.

(** Modelled from the spec: the descriptor types live in
    [pytest_forger.core], which this development has no source of.  One
    entry per formal parameter; [annotation] and [default] are source
    fragments, never evaluated. *)
Record ParameterDescriptor := {
  param_name : string;
  kind : ParameterKind;
  annotation : option string;
  default : option string;
}.

(** Modelled from the spec: one entry per discovered function or method
    (the command reads only [f['name']]). *)
Record CallableDescriptor := {
  name : string;
  parameters : list ParameterDescriptor;
  is_async : bool;
  is_method : bool;
  decorators : list string;
  docstring : option string;
  lineno : nat;
}.

(** *** The syntax tree

    The shapes of Python's [ast] module that the walk looks at.
    Expressions are kept as their source text. *)
Module ast.

Record arg := {
  arg_name : string;
  arg_annotation : option string;
}.

(** [ast.arguments]: [defaults] belong to the last positional
    parameters, [kw_defaults] has one entry per keyword-only
    parameter. *)
Record arguments := {
  posonlyargs : list arg;
  args : list arg;
  vararg : option arg;
  kwonlyargs : list arg;
  kw_defaults : list (option string);
  kwarg : option arg;
  defaults : list string;
}.

(** [FunctionDef] covers [AsyncFunctionDef] through its flag;
    [ExprStr] is an expression statement that is a bare string
    literal; [Other] is any statement the walk does not look into. *)
Inductive stmt :=
| FunctionDef (async : bool) (nm : string) (a : arguments)
              (body : list stmt) (decorator_list : list string) (line : nat)
| ClassDef (nm : string) (body : list stmt) (line : nat)
| ExprStr (value : string)
| Other (source : string).

End ast.

(** *** Source analyzer *)

Definition describe_param (k : ParameterKind) (a : ast.arg) (d : option string)
  : ParameterDescriptor :=
  {| param_name := ast.arg_name a; kind := k;
     annotation := ast.arg_annotation a; default := d |}.

(** The defaults of [n] positional parameters: absent for the first
    ones, the given fragments for the last ones. *)
Definition positional_defaults (n : nat) (defaults : list string)
  : list (option string) :=
  replicate (n - length defaults) None ++ (Some <$> defaults).

Definition describe_variadic (k : ParameterKind) (a : option ast.arg)
  : list ParameterDescriptor :=
  match a with
  | Some a => [describe_param k a None]
  | None => []
  end.

(** Modelled from the spec: [parameters] in source order, with the kind
    each was declared with. *)
Definition extract_parameters (a : ast.arguments) : list ParameterDescriptor :=
  let npos := length (ast.posonlyargs a) in
  let ds := positional_defaults (npos + length (ast.args a)) (ast.defaults a) in
  zip_with (describe_param POSITIONAL_ONLY) (ast.posonlyargs a) (take npos ds)
  ++ zip_with (describe_param POSITIONAL_OR_KEYWORD) (ast.args a) (drop npos ds)
  ++ describe_variadic VAR_POSITIONAL (ast.vararg a)
  ++ zip_with (describe_param KEYWORD_ONLY) (ast.kwonlyargs a) (ast.kw_defaults a)
  ++ describe_variadic VAR_KEYWORD (ast.kwarg a).

(** The first statement of the body when it is a bare string literal. *)
Definition get_docstring (body : list ast.stmt) : option string :=
  match body with
  | ast.ExprStr s :: _ => Some s
  | _ => None
  end.

(** The scope the walk is in. *)
Inductive scope_kind := ModuleScope | ClassScope | FunctionScope.

Definition describe (sc : scope_kind) (async : bool) (nm : string)
  (a : ast.arguments) (body : list ast.stmt) (decs : list string) (line : nat)
  : CallableDescriptor :=
  {| name := nm;
     parameters := extract_parameters a;
     is_async := async;
     is_method := match sc with ClassScope => true | _ => false end;
     decorators := decs;
     docstring := get_docstring body;
     lineno := line |}.

(** Modelled from the spec: the top-down walk.  A definition met at
    module level or directly in a class body is emitted; a class is
    entered from module level only; inside a function nothing is
    emitted. *)
Fixpoint visit (sc : scope_kind) (s : ast.stmt) : list CallableDescriptor :=
  match s with
  | ast.FunctionDef async nm a body decs line =>
      match sc with
      | FunctionScope => []
      | _ => [describe sc async nm a body decs line]
      end ++ flat_map (visit FunctionScope) body
  | ast.ClassDef _ body _ =>
      match sc with
      | ModuleScope => flat_map (visit ClassScope) body
      | _ => []
      end
  | ast.ExprStr _ | ast.Other _ => []
  end.

Definition visit_module (tree : list ast.stmt) : list CallableDescriptor :=
  flat_map (visit ModuleScope) tree.

(** The callable a statement defines, if it is a function definition. *)
Definition describe_def (sc : scope_kind) (s : ast.stmt) : option CallableDescriptor :=
  match s with
  | ast.FunctionDef async nm a body decs line =>
      Some (describe sc async nm a body decs line)
  | _ => None
  end.

Definition is_function_def (s : ast.stmt) : bool :=
  match s with
  | ast.FunctionDef _ _ _ _ _ _ => true
  | _ => false
  end.

(** The public surface of a tree, said without a walk: each module-level
    function definition, and for each module-level class the function
    definitions directly in its body, in source order. *)
Definition surface (tree : list ast.stmt) : list CallableDescriptor :=
  flat_map (fun s =>
    match s with
    | ast.FunctionDef async nm a body decs line =>
        [describe ModuleScope async nm a body decs line]
    | ast.ClassDef _ body _ => omap (describe_def ClassScope) body
    | _ => []
    end) tree.

(** The number of module-level function definitions. *)
Definition module_level_defs (tree : list ast.stmt) : nat :=
  length (List.filter is_function_def tree).

(** The number of method definitions directly in the body of a
    module-level class. *)
Fixpoint class_method_defs (tree : list ast.stmt) : nat :=
  match tree with
  | [] => 0
  | ast.ClassDef _ body _ :: tree' =>
      length (List.filter is_function_def body) + class_method_defs tree'
  | _ :: tree' => class_method_defs tree'
  end.




Section analyzer.

(** The language's own parser ([ast.parse]): a tree, or the
    diagnostic of the syntax error. *)
Variable parse : string → SyntaxDiagnostic + list ast.stmt.

(** Modelled from the spec: [CodeAnalyzer(source_path).extract_functions()]
    is defined in [pytest_forger.core], which this development has no
    source of.  Read the file, parse it, walk the tree; an unreadable file is an
    [IOError], a rejected text a [ParseError] with the parser's
    diagnostic. *)
Definition extract_functions (root : os.node) (source_path : path)
  : exception + list CallableDescriptor :=
  match os.read_text root source_path with
  | inl e => inl e
  | inr text =>
      match parse text with
      | inl d => inl (ParseError d)
      | inr tree => inr (visit_module tree)
      end
  end.

End analyzer.

(** *** Test content generator *)

Definition nl : string := String "010"%char EmptyString.

(** [seen.get(base, 0)] *)
Definition seen_count (seen : gmap string nat) (base : string) : nat :=
  match seen !! base with
  | Some k => k
  | None => 0
  end.

(** Test names in descriptor order.  [seen] maps a base name to the
    number of descriptors that have asked for it so far: the first one
    keeps the base name, the k-th one (k > 1) gets the suffix [_k]. *)
Fixpoint assign_names (seen : gmap string nat) (ds : list CallableDescriptor)
  : list string :=
  match ds with
  | [] => []
  | d :: ds' =>
      let base := "test_" +:+ name d in
      let k := seen_count seen base in
      (match k with
       | O => base
       | S _ => base +:+ "_" +:+ pretty (S k)
       end) :: assign_names (<[base := S k]> seen) ds'
  end.



(** Modelled from the spec: the names [generate_test_content] gives
    its test definitions. *)
Definition test_names (ds : list CallableDescriptor) : list string :=
  assign_names ∅ ds.

(** One positional placeholder per parameter without a default, a keyword
    placeholder per parameter with one, nothing for variadics.  A
    keyword-only parameter can only be passed by name, so it gets a
    keyword placeholder with or without a default: the call stays valid
    syntax. *)
Definition placeholder (p : ParameterDescriptor) : list string :=
  match kind p with
  | VAR_POSITIONAL | VAR_KEYWORD => []
  | KEYWORD_ONLY => [param_name p +:+ "=None"]
  | _ =>
      match default p with
      | None => ["None"]
      | Some _ => [param_name p +:+ "=None"]
      end
  end.

Definition render_call (module : string) (d : CallableDescriptor) : string :=
  (if is_async d then "await " else "")
  +:+ module +:+ "." +:+ name d +:+ "("
  +:+ pathlib.join ", " (flat_map placeholder (parameters d)) +:+ ")".

(** One test definition: the asynchronous form for an asynchronous
    callable, a note asking for a fixture for a method, the placeholder
    call, and an assertion that fails until a human replaces it. *)
Definition render_test (module : string) (test_name : string)
  (d : CallableDescriptor) : string :=
  (if is_async d then "async def " else "def ") +:+ test_name +:+ "():" +:+ nl
  +:+ (if is_method d
       then "    # method: supply the instance through a fixture" +:+ nl
       else "")
  +:+ "    " +:+ render_call module d +:+ nl
  +:+ "    assert False, 'not yet implemented'" +:+ nl.

Definition render_header (module : string) : string :=
  "import " +:+ module +:+ nl +:+ "import pytest" +:+ nl.

Fixpoint concat_tests (tests : list string) : string :=
  match tests with
  | [] => ""
  | t :: tests' => nl +:+ t +:+ concat_tests tests'
  end.

(** Modelled from the spec: [generate_test_content] is defined in
    [pytest_forger.core], which this development has no source of.  The header
    (import of the module named by the stem, import of the test
    framework), then one test per descriptor, each after a blank line.
    The spec fixes the shape of the text, not its spelling: the
    placeholder [None], the wording of the note and of the assertion are
    choices of this model. *)
Definition generate_test_content (source_path : path)
  (ds : list CallableDescriptor) : string :=
  let module := pathlib.stem source_path in
  render_header module
  +:+ concat_tests (zip_with (render_test module) (test_names ds) ds).

(** The generator as the command calls it: it returns its text and
    raises nothing. *)
Definition generate (source_path : path) (ds : list CallableDescriptor)
  : exception + string :=
  inr (generate_test_content source_path ds).

End core.

(** ** The command line *)
Module cli.

Import core.

Inductive color := RED | YELLOW | GREEN.

(** What a run does to the outside: what it prints, the directories it
    makes and the files it opens for writing with the text it writes,
    each with the error raised, if any. *)
Inductive event :=
| Echo (fg : option color) (message : string)
| Mkdir (p : path) (error : option exception)
| WriteFile (p : path) (text : string) (error : option exception).

(** A computation over the file system that returns or raises, and emits
    events. *)
Definition M (A : Type) : Type := os.node → (exception + A) * os.node * list event.

Definition ret {A} (a : A) : M A := fun fs => (inr a, fs, []).

Definition bind {A B} (m : M A) (k : A → M B) : M B :=
  fun fs =>
    match m fs with
    | (inl e, fs1, ev1) => (inl e, fs1, ev1)
    | (inr a, fs1, ev1) =>
        match k a fs1 with
        | (r, fs2, ev2) => (r, fs2, ev1 ++ ev2)
        end
    end.

Definition raise {A} (e : exception) : M A := fun fs => (inl e, fs, []).

(** [try: m except <handles> as e: handler e] *)
Definition try_except {A} (m : M A) (handles : exception → bool)
  (handler : exception → M A) : M A :=
  fun fs =>
    match m fs with
    | (inl e, fs1, ev1) =>
        if handles e then
          match handler e fs1 with
          | (r, fs2, ev2) => (r, fs2, ev1 ++ ev2)
          end
        else (inl e, fs1, ev1)
    | (inr a, fs1, ev1) => (inr a, fs1, ev1)
    end.

Definition lift {A} (f : os.node → exception + A) : M A :=
  fun fs =>
    match f fs with
    | inl e => (inl e, fs, [])
    | inr a => (inr a, fs, [])
    end.

Definition echo (message : string) : M unit :=
  fun fs => (inr tt, fs, [Echo None message]).

Definition secho (message : string) (fg : color) : M unit :=
  fun fs => (inr tt, fs, [Echo (Some fg) message]).

Definition path_exists (p : path) : M bool :=
  fun fs => (inr (os.path_exists fs p), fs, []).

Definition is_file (p : path) : M bool :=
  fun fs => (inr (os.is_file fs p), fs, []).

Definition mkdir_parents (p : path) : M unit :=
  fun fs =>
    match os.mkdir_parents [] fs p with
    | inl e => (inl e, fs, [Mkdir p (Some e)])
    | inr fs' => (inr tt, fs', [Mkdir p None])
    end.

Definition write_text (p : path) (text : string) : M unit :=
  fun fs =>
    match os.write_text [] fs p text with
    | inl e => (inl e, fs, [WriteFile p text (Some e)])
    | inr fs' => (inr tt, fs', [WriteFile p text None])
    end.

Definition when (b : bool) (m : M unit) : M unit := if b then m else ret tt.

Fixpoint for_each {A} (l : list A) (body : A → M unit) : M unit :=
  match l with
  | [] => ret tt
  | x :: l' => bind (body x) (fun _ => for_each l' body)
  end.

Notation "x <- m ;; k" := (bind m (fun x => k))
  (at level 100, m at next level, right associativity).
Notation "m ;; k" := (bind m (fun _ => k))
  (at level 100, right associativity).

(** The truth value of an optional string option: [None] and the empty
    string are false. *)
Definition truthy (o : option string) : bool :=
  match o with
  | Some s => negb (String.eqb s "")
  | None => false
  end.

(** The string of an option that was given. *)
Definition given (o : option string) : string :=
  match o with
  | Some s => s
  | None => ""
  end.

Record forge_args := {
  source_file : string;
  function_name : option string;
  output_dir : option string;
  overwrite : bool;
  verbose : bool;
}.

(** The exit status of the process: 0 when the command returns, the code
    of [typer.Exit], 1 for any other exception that escapes. *)
Definition exit_status (r : exception + unit) : Z :=
  match r with
  | inr _ => 0
  | inl (Exit code) => code
  | inl _ => 1
  end.

Section forge.

(** [CodeAnalyzer(p).extract_functions()] and [generate_test_content],
    imported from [pytest_forger.core]; the working directory. *)
Variable extract_functions : os.node → path → exception + list CallableDescriptor.
Variable generate_test_content : path → list CallableDescriptor → exception + string.
Variable cwd : path.

Definition forge (a : forge_args) : M unit :=
  (* 1. Initial Validation *)
  let src_path := pathlib.Path (source_file a) in
  ex <- path_exists src_path ;;
  isf <- is_file src_path ;;
  (if negb ex || negb isf then
     secho ("Error: Source file '" +:+ source_file a +:+ "' not found.") RED ;;
     raise (Exit 1)
   else ret tt) ;;
  when (verbose a)
    (echo ("Analyzing source file: " +:+ pathlib.absolute cwd src_path)) ;;
  (* 2. Parsing *)
  functions <- try_except
    (lift (fun fs => extract_functions fs src_path))
    (fun _ => true)
    (fun e =>
       secho ("Error parsing file: " +:+ str e) RED ;;
       raise (Exit 1)) ;;
  (* Filter by specific function if requested *)
  functions <-
    (if truthy (function_name a) then
       let functions :=
         List.filter (fun f => String.eqb (name f) (given (function_name a)))
                     functions in
       when (bool_decide (functions = []))
         (secho ("Warning: Function '" +:+ given (function_name a)
                 +:+ "' not found in source.") YELLOW) ;;
       ret functions
     else ret functions) ;;
  when (verbose a)
    (echo ("Found " +:+ pretty (length functions) +:+ " functions/methods to test.")) ;;
  (* 3. Output Directory Preparation *)
  let default_out := pathlib.Path "tests" in
  let out_path :=
    if truthy (output_dir a) then pathlib.Path (given (output_dir a))
    else default_out in
  out_ex <- path_exists out_path ;;
  when (negb out_ex)
    (mkdir_parents out_path ;;
     when (verbose a) (echo ("Created directory: " +:+ pathlib.path_str out_path))) ;;
  (* Define test filename *)
  let test_filename := "test_" +:+ pathlib.stem src_path +:+ ".py" in
  let test_file_path := pathlib.div out_path test_filename in
  (* 4. Generation and Writing *)
  test_ex <- path_exists test_file_path ;;
  (if test_ex && negb (overwrite a) then
     secho ("Warning: File '" +:+ pathlib.path_str test_file_path
            +:+ "' already exists. Use --overwrite to replace it.") YELLOW ;;
     raise (Exit 0)
   else ret tt) ;;
  test_content <- lift (fun _ => generate_test_content src_path functions) ;;
  try_except
    (write_text test_file_path test_content ;;
     secho ("Successfully forged: " +:+ pathlib.path_str test_file_path) GREEN ;;
     when (verbose a)
       (echo "Generated tests for:" ;;
        for_each functions (fun f => echo ("   - " +:+ name f))))
    is_IOError
    (fun e =>
       secho ("Error writing file: " +:+ str e) RED ;;
       raise (Exit 1)).

(** The names the command computes on its way, as functions of its
    arguments. *)
Definition src_path_of (a : forge_args) : path := pathlib.Path (source_file a).

Definition out_path_of (a : forge_args) : path :=
  if truthy (output_dir a) then pathlib.Path (given (output_dir a))
  else pathlib.Path "tests".

Definition test_filename_of (a : forge_args) : string :=
  "test_" +:+ pathlib.stem (src_path_of a) +:+ ".py".

Definition test_file_path_of (a : forge_args) : path :=
  pathlib.div (out_path_of a) (test_filename_of a).

(** The first line of a verbose run. *)
Definition announce (a : forge_args) : list event :=
  if verbose a
  then [Echo None ("Analyzing source file: " +:+ pathlib.absolute cwd (src_path_of a))]
  else [].

(** *** The run, case by case

    The same command written as one case analysis on what the file
    system and the two imported functions answer; [forge_cases_eq]
    below proves that [forge] computes exactly this. *)

(** The descriptors kept by [--function]. *)
Definition selected (a : forge_args) (functions : list CallableDescriptor)
  : list CallableDescriptor :=
  if truthy (function_name a)
  then List.filter (fun f => String.eqb (name f) (given (function_name a))) functions
  else functions.

Definition not_found_warning (fname : string) : event :=
  Echo (Some YELLOW) ("Warning: Function '" +:+ fname +:+ "' not found in source.").

Definition filter_warning (a : forge_args) (kept : list CallableDescriptor)
  : list event :=
  if truthy (function_name a) && bool_decide (kept = [])
  then [not_found_warning (given (function_name a))]
  else [].

Definition found_message (a : forge_args) (kept : list CallableDescriptor)
  : list event :=
  if verbose a
  then [Echo None ("Found " +:+ pretty (length kept) +:+ " functions/methods to test.")]
  else [].

Definition created_message (a : forge_args) : list event :=
  if verbose a
  then [Echo None ("Created directory: " +:+ pathlib.path_str (out_path_of a))]
  else [].

Definition listing (a : forge_args) (kept : list CallableDescriptor) : list event :=
  if verbose a
  then Echo None "Generated tests for:"
       :: ((fun f => Echo None ("   - " +:+ name f)) <$> kept)
  else [].

Definition already_exists_warning (a : forge_args) : event :=
  Echo (Some YELLOW) ("Warning: File '" +:+ pathlib.path_str (test_file_path_of a)
                      +:+ "' already exists. Use --overwrite to replace it.").

(** Steps 3 and 4, for the descriptors [kept]. *)
Definition output_cases (a : forge_args) (kept : list CallableDescriptor)
  (fs : os.node) : (exception + unit) * os.node * list event :=
  let out := out_path_of a in
  let dest := test_file_path_of a in
  match (if os.path_exists fs out then inr (fs, [])
         else match os.mkdir_parents [] fs out with
              | inl e => inl e
              | inr fs1 => inr (fs1, Mkdir out None :: created_message a)
              end) with
  | inl e => (inl e, fs, found_message a kept ++ [Mkdir out (Some e)])
  | inr (fs1, made) =>
      if os.path_exists fs1 dest && negb (overwrite a) then
        (inl (Exit 0), fs1,
         found_message a kept ++ made ++ [already_exists_warning a])
      else
        match generate_test_content (src_path_of a) kept with
        | inl e => (inl e, fs1, found_message a kept ++ made)
        | inr content =>
            match os.write_text [] fs1 dest content with
            | inl e =>
                (inl (Exit 1), fs1,
                 found_message a kept ++ made
                 ++ [WriteFile dest content (Some e);
                     Echo (Some RED) ("Error writing file: " +:+ str e)])
            | inr fs2 =>
                (inr tt, fs2,
                 found_message a kept ++ made
                 ++ [WriteFile dest content None;
                     Echo (Some GREEN)
                          ("Successfully forged: " +:+ pathlib.path_str dest)]
                 ++ listing a kept)
            end
        end
  end.

Definition forge_cases (a : forge_args) (fs : os.node)
  : (exception + unit) * os.node * list event :=
  let src := src_path_of a in
  if negb (os.path_exists fs src) || negb (os.is_file fs src) then
    (inl (Exit 1), fs,
     [Echo (Some RED) ("Error: Source file '" +:+ source_file a +:+ "' not found.")])
  else
    match extract_functions fs src with
    | inl e =>
        (inl (Exit 1), fs,
         announce a ++ [Echo (Some RED) ("Error parsing file: " +:+ str e)])
    | inr functions =>
        let kept := selected a functions in
        match output_cases a kept fs with
        | (r, fs', evs) => (r, fs', announce a ++ filter_warning a kept ++ evs)
        end
    end.

End forge.

(** The three components of a finished run. *)
Definition outcome {A} (r : (exception + A) * os.node * list event) : exception + A :=
  r.1.1.
Definition final_fs {A} (r : (exception + A) * os.node * list event) : os.node :=
  r.1.2.
Definition events {A} (r : (exception + A) * os.node * list event) : list event :=
  r.2.

(** The same arguments without [--function]. *)
Definition without_filter (a : forge_args) : forge_args :=
  {| source_file := source_file a; function_name := None;
     output_dir := output_dir a; overwrite := overwrite a; verbose := verbose a |}.

Definition is_echo (ev : event) : bool :=
  match ev with
  | Echo _ _ => true
  | _ => false
  end.

Definition is_write (ev : event) : bool :=
  match ev with
  | WriteFile _ _ _ => true
  | _ => false
  end.

(** The write events of a run. *)
Definition writes (evs : list event) : list event := List.filter is_write evs.

(** The three ways a run ends with respect to writing: nothing was
    written and the command did not return; the test file was written
    and the command returned; the write raised, the error was printed
    last and the command exited with 1. *)
Inductive write_result (a : forge_args)
    (r : (exception + unit) * os.node * list event) : Prop :=
| NothingWritten :
    writes (events r) = [] → outcome r ≠ inr tt → write_result a r
| Written (content : string) (readable writable : bool) :
    writes (events r) = [WriteFile (test_file_path_of a) content None] →
    outcome r = inr tt →
    os.lookup (final_fs r) (test_file_path_of a)
      = Some (os.File readable writable content) →
    write_result a r
| WriteFailed (content : string) (e : exception) :
    writes (events r) = [WriteFile (test_file_path_of a) content (Some e)] →
    outcome r = inl (Exit 1) →
    is_IOError e = true →
    last (events r) = Some (Echo (Some RED) ("Error writing file: " +:+ str e)) →
    write_result a r.

(** The output directory is given relative to the working directory and
    without [..]: the components of [out_path_of a] are the names of the
    directories on the way. *)
Definition plain_output (a : forge_args) : bool :=
  negb (pathlib.is_absolute (given (output_dir a))) && pathlib.normal (out_path_of a).

(** The same arguments without [--verbose]. *)
Definition quiet (a : forge_args) : forge_args :=
  {| source_file := source_file a; function_name := function_name a;
     output_dir := output_dir a; overwrite := overwrite a; verbose := false |}.

(** A message printed by [typer.echo], without a colour. *)
Definition is_plain_echo (ev : event) : bool :=
  match ev with
  | Echo None _ => true
  | _ => false
  end.

(** The events of a run other than the uncoloured messages. *)
Definition essential (evs : list event) : list event :=
  List.filter (fun ev => negb (is_plain_echo ev)) evs.

Definition success_message (a : forge_args) : event :=
  Echo (Some GREEN) ("Successfully forged: " +:+ pathlib.path_str (test_file_path_of a)).

(** *** The version command *)
Section version.

(** What [from pytest_forger import __version__] gives: the version
    string, or nothing when the import raises [ImportError]. *)
Variable package_version : option string.

Definition get_version : string :=
  match package_version with
  | Some v => v
  | None => "0.1.0-dev"
  end.

Definition version : M unit :=
  let version_str := get_version in
  echo ("pytest-forger v" +:+ version_str) ;;
  echo "https://github.com/daryll/pytest-forger" ;;
  echo "MIT License (c) 2025 Daryll Lorenzo Alfonso".

End version.

End cli.

(** ** Sample programs and file systems *)
Module samples.

Import core.

Definition no_args : ast.arguments :=
  {| ast.posonlyargs := []; ast.args := []; ast.vararg := None;
     ast.kwonlyargs := []; ast.kw_defaults := []; ast.kwarg := None;
     ast.defaults := [] |}.

Definition plain (n : string) : ast.arg :=
  {| ast.arg_name := n; ast.arg_annotation := None |}.

Definition positional (l : list string) : ast.arguments :=
  {| ast.posonlyargs := []; ast.args := plain <$> l; ast.vararg := None;
     ast.kwonlyargs := []; ast.kw_defaults := []; ast.kwarg := None;
     ast.defaults := [] |}.

(** Two module-level functions. *)
Definition two_functions_text : string :=
  "def alpha():" +:+ nl +:+ "    pass" +:+ nl +:+ nl +:+
  "def beta():" +:+ nl +:+ "    pass" +:+ nl.

Definition two_functions_tree : list ast.stmt :=
  [ast.FunctionDef false "alpha" no_args [ast.Other "pass"] [] 1;
   ast.FunctionDef false "beta" no_args [ast.Other "pass"] [] 4].

(** A text the parser rejects. *)
Definition broken_text : string := "def alpha(:" +:+ nl.

Definition broken_diag : SyntaxDiagnostic :=
  {| diag_msg := "invalid syntax"; diag_lineno := 1; diag_offset := 11 |}.

(** Functions nested in a function and in a method, and a class nested
    in a class. *)
Definition nested_text : string :=
  "def outer():" +:+ nl +:+
  "    def inner():" +:+ nl +:+
  "        pass" +:+ nl +:+
  "    return inner" +:+ nl +:+ nl +:+
  "class Box:" +:+ nl +:+
  "    def get(self):" +:+ nl +:+
  "        def helper():" +:+ nl +:+
  "            pass" +:+ nl +:+
  "        return helper()" +:+ nl +:+ nl +:+
  "    async def put(self, item):" +:+ nl +:+
  "        pass" +:+ nl +:+ nl +:+
  "    class Lid:" +:+ nl +:+
  "        def lift(self):" +:+ nl +:+
  "            pass" +:+ nl.

Definition nested_tree : list ast.stmt :=
  [ast.FunctionDef false "outer" no_args
     [ast.FunctionDef false "inner" no_args [ast.Other "pass"] [] 2;
      ast.Other "return inner"] [] 1;
   ast.ClassDef "Box"
     [ast.FunctionDef false "get" (positional ["self"])
        [ast.FunctionDef false "helper" no_args [ast.Other "pass"] [] 8;
         ast.Other "return helper()"] [] 7;
      ast.FunctionDef true "put" (positional ["self"; "item"])
        [ast.Other "pass"] [] 12;
      ast.ClassDef "Lid"
        [ast.FunctionDef false "lift" (positional ["self"])
           [ast.Other "pass"] [] 16] 15] 6].

(** [def f(a, b=1, *args, c, **kw)] and the tree the parser builds for
    it. *)
Definition signature_text : string :=
  "def f(a, b=1, *args, c, **kw):" +:+ nl +:+ "    pass" +:+ nl.

Definition signature_arguments : ast.arguments :=
  {| ast.posonlyargs := [];
     ast.args := [plain "a"; plain "b"];
     ast.vararg := Some (plain "args");
     ast.kwonlyargs := [plain "c"];
     ast.kw_defaults := [None];
     ast.kwarg := Some (plain "kw");
     ast.defaults := ["1"] |}.

Definition signature_tree : list ast.stmt :=
  [ast.FunctionDef false "f" signature_arguments [ast.Other "pass"] [] 1].

(** The parser on the sample texts; any other text is taken as
    rejected. *)
Definition sample_parse (text : string) : SyntaxDiagnostic + list ast.stmt :=
  if String.eqb text two_functions_text then inr two_functions_tree
  else if String.eqb text nested_text then inr nested_tree
  else if String.eqb text signature_text then inr signature_tree
  else if String.eqb text "" then inr []
  else inl broken_diag.

Definition sample_extract := extract_functions sample_parse.

Definition sample_generate : path → list CallableDescriptor → exception + string :=
  generate.

Definition sample_forge : cli.forge_args → cli.M unit :=
  cli.forge sample_extract sample_generate ["home"; "user"; "project"].

Definition file (text : string) : os.node := os.File true true text.

(** A project with one source file and no test directory yet. *)
Definition fs_project : os.node :=
  os.Dir true {[ "m.py" := file two_functions_text ]}.

(** The same project after a first run left a test file behind. *)
Definition fs_forged : os.node :=
  os.Dir true {[ "m.py" := file two_functions_text;
                 "tests" := os.Dir true {[ "test_m.py" := file "old" ]} ]}.

(** A test file is there, the source file is not. *)
Definition fs_no_source : os.node :=
  os.Dir true {[ "tests" := os.Dir true {[ "test_m.py" := file "old" ]} ]}.

(** The source file does not parse. *)
Definition fs_broken : os.node :=
  os.Dir true {[ "m.py" := file broken_text ]}.

(** The test directory is there but cannot be written to. *)
Definition fs_readonly_tests : os.node :=
  os.Dir true {[ "m.py" := file two_functions_text;
                 "tests" := os.Dir false ∅ ]}.

(** A project whose source nests definitions, and one with the
    five-parameter signature. *)
Definition fs_nested : os.node :=
  os.Dir true {[ "box.py" := file nested_text ]}.

Definition fs_signature : os.node :=
  os.Dir true {[ "sig.py" := file signature_text ]}.

Definition forge_m : cli.forge_args :=
  {| cli.source_file := "m.py"; cli.function_name := None;
     cli.output_dir := None; cli.overwrite := false; cli.verbose := false |}.

Definition forge_m_overwrite : cli.forge_args :=
  {| cli.source_file := "m.py"; cli.function_name := None;
     cli.output_dir := None; cli.overwrite := true; cli.verbose := false |}.

Definition forge_m_verbose : cli.forge_args :=
  {| cli.source_file := "m.py"; cli.function_name := Some "alpha";
     cli.output_dir := None; cli.overwrite := false; cli.verbose := true |}.

(** [--output m.py]: the output directory is given as the source file. *)
Definition forge_m_into_file : cli.forge_args :=
  {| cli.source_file := "m.py"; cli.function_name := None;
     cli.output_dir := Some "m.py"; cli.overwrite := false; cli.verbose := false |}.

(** [--output .]: the tests go next to the source. *)
Definition forge_m_here : cli.forge_args :=
  {| cli.source_file := "m.py"; cli.function_name := None;
     cli.output_dir := Some "."; cli.overwrite := true; cli.verbose := false |}.

(** The project directory cannot be written to, and has no test
    directory. *)
Definition fs_readonly_root : os.node :=
  os.Dir false {[ "m.py" := file two_functions_text ]}.

Definition forge_m_gamma : cli.forge_args :=
  {| cli.source_file := "m.py"; cli.function_name := Some "gamma";
     cli.output_dir := None; cli.overwrite := false; cli.verbose := false |}.

Definition forge_m_empty_filter : cli.forge_args :=
  {| cli.source_file := "m.py"; cli.function_name := Some "";
     cli.output_dir := None; cli.overwrite := false; cli.verbose := false |}.

Definition named (n : string) : CallableDescriptor :=
  {| name := n; parameters := []; is_async := false; is_method := false;
     decorators := []; docstring := None; lineno := 0 |}.

End samples.

(** * Properties *)

(** ** pathlib *)
Section pathlib_facts.

Import pathlib.

Lemma rfind_dot_py (s : string) :
  rfind "."%char (s +:+ ".py") = Some (String.length s).
Proof.
  induction s as [|c s IH]; [reflexivity|].
  change (String c s +:+ ".py") with (String c (s +:+ ".py")).
  cbn [rfind]. by rewrite IH.
Qed.

Lemma substring_prefix (s t : string) :
  String.substring 0 (String.length s) (s +:+ t) = s.
Proof.
  induction s as [|c s IH]; cbn.
  - by destruct t.
  - change (String c s +:+ t) with (String c (s +:+ t)).
    cbn [String.substring]. by rewrite IH.
Qed.

Lemma length_append (s t : string) :
  String.length (s +:+ t) = String.length s + String.length t.
Proof.
  induction s as [|c s IH]; [reflexivity|].
  change (String c s +:+ t) with (String c (s +:+ t)). cbn. by rewrite IH.
Qed.

Lemma name_snoc (dir : path) (c : string) : name (dir ++ [c]) = c.
Proof. unfold name. by rewrite last_last. Qed.

(** The stem of [<s>.py] is [s]. *)
Lemma stem_py (dir : path) (s : string) :
  s ≠ "" → stem (dir ++ [s +:+ ".py"]) = s.
Proof.
  intros Hs. unfold stem. rewrite name_snoc, rfind_dot_py, length_append.
  destruct s as [|c s]; [done|].
  assert ((0 <? String.length (String c s)) = true) as ->
    by (apply Nat.ltb_lt; cbn; lia).
  assert ((String.length (String c s)
             <? String.length (String c s) + String.length ".py" - 1) = true) as ->
    by (apply Nat.ltb_lt; cbn; lia).
  apply substring_prefix.
Qed.


End pathlib_facts.

(** ** The file system *)
Section os_facts.

Import os.

(** What resolves has a prefix that resolves. *)
Lemma lookup_app (n : node) (p q : path) :
  lookup n (p ++ q) = lookup n p ≫= (fun m => lookup m q).
Proof.
  revert n. induction p as [|c p IH]; intros n; [reflexivity|].
  cbn. destruct n as [| w es]; [reflexivity|].
  destruct (es !! c); [apply IH | reflexivity].
Qed.

Lemma path_exists_prefix (root : node) (p q : path) :
  path_exists root (p ++ q) = true → path_exists root p = true.
Proof.
  unfold path_exists. rewrite lookup_app.
  by destruct (lookup root p).
Qed.

Lemma is_file_exists (root : node) (p : path) :
  is_file root p = true → path_exists root p = true.
Proof. unfold is_file, path_exists. by destruct (lookup root p). Qed.

Lemma read_text_is_file (root : node) (p : path) (text : string) :
  read_text root p = inr text → is_file root p = true.
Proof.
  unfold read_text, is_file.
  destruct (lookup root p) as [[r w t| w es]|]; [|done..]. by destruct r.
Qed.

(** A write that succeeds leaves a file with the text at the path. *)
Lemma write_text_lookup (pre : path) (n n' : node) (p : path) (text : string) :
  write_text pre n p text = inr n' →
  ∃ r w, lookup n' p = Some (File r w text).
Proof.
  revert pre n n'. induction p as [|c p IH]; intros pre n n'; cbn.
  - destruct n as [r w t| w es]; [|done].
    destruct w; [|done]. intros [= <-]. eauto.
  - destruct n as [r w t| w es]; [done|].
    destruct (es !! c) as [child|] eqn:Hc.
    + destruct (write_text (pre ++ [c]) child p text) as [e|child'] eqn:Hw; [done|].
      intros [= <-]. rewrite lookup_insert_eq. eauto.
    + destruct p as [|c' p]; [|done].
      destruct w; [|done]. intros [= <-]. rewrite lookup_insert_eq. cbn. eauto.
Qed.

(** The system calls raise [OSError]s only. *)
Lemma write_text_error (pre : path) (n : node) (p : path) (text : string)
    (e : exception) :
  write_text pre n p text = inl e → is_IOError e = true.
Proof.
  revert pre n. induction p as [|c p IH]; intros pre n; cbn.
  - destruct n as [r w t| w es]; [|by intros [= <-]].
    destruct w; [done|]. by intros [= <-].
  - destruct n as [r w t| w es]; [by intros [= <-]|].
    destruct (es !! c) as [child|].
    + destruct (write_text (pre ++ [c]) child p text) as [e'|child'] eqn:Hw; [|done].
      intros [= <-]. eauto.
    + destruct p as [|c' p]; [|by intros [= <-]].
      destruct w; [done|]. by intros [= <-].
Qed.

End os_facts.

(** ** Source analyzer *)
Section analyzer_facts.

Import core.

(** Induction on statements that reaches into the bodies. *)
Lemma stmt_nested_ind (P : ast.stmt → Prop) :
  (∀ async nm a body decs line,
      Forall P body → P (ast.FunctionDef async nm a body decs line)) →
  (∀ nm body line, Forall P body → P (ast.ClassDef nm body line)) →
  (∀ v, P (ast.ExprStr v)) →
  (∀ src, P (ast.Other src)) →
  ∀ s, P s.
Proof.
  intros Hfun Hclass Hstr Hother.
  fix IH 1. intros [async nm a body decs line | nm body line | v | src].
  - apply Hfun. induction body as [|s body IHbody]; constructor; [apply IH | exact IHbody].
  - apply Hclass. induction body as [|s body IHbody]; constructor; [apply IH | exact IHbody].
  - apply Hstr.
  - apply Hother.
Qed.

Lemma flat_map_nil {A B} (f : A → list B) (l : list A) :
  Forall (fun x => f x = []) l → flat_map f l = [].
Proof. induction 1 as [|x l Hx _ IH]; cbn; [done|]. by rewrite Hx, IH. Qed.

(** Inside a function nothing is emitted, however deep the walk goes. *)
Lemma visit_function_scope (s : ast.stmt) : visit FunctionScope s = [].
Proof.
  induction s as [async nm a body decs line IH | nm body line IH | v | src]
    using stmt_nested_ind; cbn; [|done..].
  by apply flat_map_nil.
Qed.

Lemma visit_body_function_scope (body : list ast.stmt) :
  flat_map (visit FunctionScope) body = [].
Proof. apply flat_map_nil, Forall_forall. intros s _. apply visit_function_scope. Qed.

(** In a class body a statement contributes the method it defines. *)
Lemma visit_class_scope (s : ast.stmt) :
  visit ClassScope s = option_list (describe_def ClassScope s).
Proof.
  destruct s as [async nm a body decs line | nm body line | v | src]; cbn; [|done..].
  by rewrite visit_body_function_scope.
Qed.

Lemma visit_class_body (body : list ast.stmt) :
  flat_map (visit ClassScope) body = omap (describe_def ClassScope) body.
Proof.
  induction body as [|s body IH]; [done|]. cbn [flat_map].
  rewrite visit_class_scope, IH. cbn. by destruct (describe_def ClassScope s).
Qed.

(** The walk yields the public surface. *)
Lemma visit_module_surface (tree : list ast.stmt) : visit_module tree = surface tree.
Proof.
  unfold visit_module, surface.
  induction tree as [|s tree IH]; [done|]. cbn [flat_map]. rewrite IH. f_equal.
  destruct s as [async nm a body decs line | nm body line | v | src]; cbn; [|by rewrite ?visit_class_body..].
  by rewrite visit_body_function_scope.
Qed.

Lemma length_omap_describe_def (sc : scope_kind) (body : list ast.stmt) :
  length (omap (describe_def sc) body) = length (List.filter is_function_def body).
Proof.
  induction body as [|s body IH]; [done|].
  destruct s; cbn; by rewrite ?IH.
Qed.

Lemma length_surface (tree : list ast.stmt) :
  length (surface tree) = module_level_defs tree + class_method_defs tree.
Proof.
  unfold surface, module_level_defs.
  induction tree as [|s tree IH]; [done|]. cbn [flat_map].
  rewrite length_app, IH.
  destruct s as [async nm a body decs line | nm body line | v | src]; cbn; [lia| |lia..].
  rewrite length_omap_describe_def. lia.
Qed.

(** *** Definition order *)










End analyzer_facts.

(** ** Test content generator *)
Section generator_facts.

Import core.






End generator_facts.

(** ** The forge command *)
Section forge_facts.

Import core cli.

Variable extract_functions : os.node → path → exception + list CallableDescriptor.
Variable generate_test_content : path → list CallableDescriptor → exception + string.
Variable cwd : path.

#[local] Abbreviation forge := (cli.forge extract_functions generate_test_content cwd).
#[local] Abbreviation forge_cases := (cli.forge_cases extract_functions generate_test_content cwd).
#[local] Abbreviation output_cases := (cli.output_cases generate_test_content).

Lemma for_each_echo {A} (l : list A) (f : A → string) (fs : os.node) :
  for_each l (fun x fs0 => (inr tt, fs0, [Echo None (f x)])) fs
  = (inr tt, fs, (fun x => Echo None (f x)) <$> l).
Proof.
  induction l as [|x l IH]; [done|].
  cbn [for_each]. unfold bind at 1. by rewrite IH.
Qed.

(** [forge] computes what the case analysis says. *)
Lemma forge_cases_eq (a : forge_args) (fs : os.node) : forge a fs = forge_cases a fs.
Proof.
  unfold cli.forge, cli.forge_cases, cli.output_cases, announce, selected,
    filter_warning, found_message, created_message, listing, already_exists_warning,
    not_found_warning, bind, path_exists, is_file, when, secho, echo, raise, ret,
    try_except, lift, mkdir_parents, write_text.
  unfold test_file_path_of, test_filename_of, out_path_of, src_path_of.
  generalize (pathlib.Path "tests"); intros default_out.
  destruct (os.path_exists fs (pathlib.Path (source_file a))),
    (os.is_file fs (pathlib.Path (source_file a))); cbn; try reflexivity.
  destruct (verbose a) eqn:Hv; cbn.
  all: destruct (extract_functions fs (pathlib.Path (source_file a))) as [e|fns]; cbn;
    [reflexivity|].
  all: destruct (truthy (function_name a)); cbn.
  all: repeat case_bool_decide; cbn.
  all: destruct (truthy (output_dir a)); cbn.
  all: repeat match goal with
    | |- context [os.path_exists ?f ?p] => destruct (os.path_exists f p) eqn:?; cbn
    | |- context [os.mkdir_parents ?x ?f ?p] => destruct (os.mkdir_parents x f p) eqn:?; cbn
    | |- context [overwrite ?x] => destruct (overwrite x) eqn:?; cbn
    | |- context [generate_test_content ?p ?l] =>
        destruct (generate_test_content p l) eqn:?; cbn
    | |- context [os.write_text ?x ?f ?p ?t] =>
        let H := fresh "Hw" in
        destruct (os.write_text x f p t) eqn:H; cbn;
        [rewrite (write_text_error _ _ _ _ _ H); cbn|]
    end.
  all: rewrite ?for_each_echo; cbn; rewrite ?app_nil_r; try reflexivity.
Qed.

(** *** What a run writes *)

Lemma writes_app (l1 l2 : list event) : writes (l1 ++ l2) = writes l1 ++ writes l2.
Proof. apply List.filter_app. Qed.

Lemma writes_announce (a : forge_args) : writes (announce cwd a) = [].
Proof. unfold announce. by destruct (verbose a). Qed.

Lemma writes_filter_warning (a : forge_args) (kept : list CallableDescriptor) :
  writes (filter_warning a kept) = [].
Proof. unfold filter_warning. by destruct (_ && _). Qed.

Lemma writes_found_message (a : forge_args) (kept : list CallableDescriptor) :
  writes (found_message a kept) = [].
Proof. unfold found_message. by destruct (verbose a). Qed.

Lemma writes_created_message (a : forge_args) : writes (created_message a) = [].
Proof. unfold created_message. by destruct (verbose a). Qed.

Lemma writes_listing (a : forge_args) (kept : list CallableDescriptor) :
  writes (listing a kept) = [].
Proof.
  unfold listing. destruct (verbose a); [|done]. cbn.
  induction kept as [|d kept IH]; [done|]. exact IH.
Qed.

Lemma output_cases_write_result (a : forge_args) (kept : list CallableDescriptor)
    (fs : os.node) :
  write_result a (output_cases a kept fs).
Proof.
  unfold cli.output_cases.
  destruct (if os.path_exists fs (out_path_of a) then _ else _)
    as [e|[fs1 made]] eqn:Hout.
  { apply NothingWritten; [|done]. cbn.
    by rewrite writes_app, writes_found_message. }
  assert (writes made = []) as Hmade.
  { destruct (os.path_exists fs (out_path_of a)); [by injection Hout as _ <-|].
    destruct (os.mkdir_parents [] fs (out_path_of a)); [done|].
    injection Hout as _ <-. cbn. apply writes_created_message. }
  destruct (os.path_exists fs1 (test_file_path_of a) && negb (overwrite a)).
  { apply NothingWritten; [|done]. cbn.
    by rewrite !writes_app, writes_found_message, Hmade. }
  destruct (generate_test_content (src_path_of a) kept) as [e|content].
  { apply NothingWritten; [|by destruct e]. cbn.
    by rewrite !writes_app, writes_found_message, Hmade. }
  destruct (os.write_text [] fs1 (test_file_path_of a) content) as [e|fs2] eqn:Hw.
  - apply (WriteFailed _ _ content e); cbn.
    + by rewrite !writes_app, writes_found_message, Hmade.
    + done.
    + by apply write_text_error in Hw.
    + by rewrite !last_app.
  - destruct (write_text_lookup _ _ _ _ _ Hw) as (r & w & Hlook).
    apply (Written _ _ content r w); unfold events, outcome, final_fs; cbn [fst snd].
    + by rewrite !writes_app, writes_found_message, Hmade, writes_listing.
    + done.
    + done.
Qed.

Lemma forge_write_result (a : forge_args) (fs : os.node) :
  write_result a (forge a fs).
Proof.
  rewrite forge_cases_eq. unfold cli.forge_cases.
  destruct (negb _ || negb _); [by apply NothingWritten|].
  destruct (extract_functions fs (src_path_of a)) as [e|fns].
  { apply NothingWritten; [|done]. cbn. by rewrite writes_app, writes_announce. }
  destruct (output_cases_write_result a (selected a fns) fs)
    as [Hw Hr | content r w Hw Hr Hl | content e Hw Hr He Hlast];
    destruct (output_cases a (selected a fns) fs) as [[res fs'] evs]; cbn in *.
  - apply NothingWritten; [|done]. cbn.
    by rewrite !writes_app, writes_announce, writes_filter_warning.
  - apply (Written _ _ content r w); [|done..]. cbn.
    by rewrite !writes_app, writes_announce, writes_filter_warning.
  - apply (WriteFailed _ _ content e); [|done..|]; cbn.
    + by rewrite !writes_app, writes_announce, writes_filter_warning.
    + by rewrite !last_app, Hlast.
Qed.

End forge_facts.

(** ** The command's guards *)
Section forge_guards.

Import core cli.

Variable extract_functions : os.node → path → exception + list CallableDescriptor.
Variable generate_test_content : path → list CallableDescriptor → exception + string.
Variable cwd : path.

#[local] Abbreviation forge := (cli.forge extract_functions generate_test_content cwd).

(** C10. When the source path does not exist or is not a regular file,
    the run prints the error and exits with status 1 and has done
    nothing else: the file system is unchanged, the only event is the
    message, and neither the analyzer nor the generator has a say in
    the result. *)
Theorem forge_source_not_found (a : forge_args) (fs : os.node) :
  os.path_exists fs (src_path_of a) = false ∨ os.is_file fs (src_path_of a) = false →
  forge a fs
  = (inl (Exit 1), fs,
     [Echo (Some RED) ("Error: Source file '" +:+ source_file a +:+ "' not found.")])
  ∧ exit_status (outcome (forge a fs)) = 1%Z.
Proof.
  intros Hsrc. rewrite forge_cases_eq. unfold forge_cases.
  assert (negb (os.path_exists fs (src_path_of a)) || negb (os.is_file fs (src_path_of a))
          = true) as ->; [|done].
  destruct Hsrc as [-> | ->]; [done|]. apply orb_true_r.
Qed.

(** C1 (amended). When the source file is there and is analysed without
    error, the destination test file already exists and no overwrite
    directive is given, generation is skipped (whatever the generator
    would do), nothing is written, the file system is left as it was, and
    the run ends with exit status 0 after the warning. *)
Theorem forge_already_exists (a : forge_args) (fs : os.node)
    (functions : list CallableDescriptor) :
  os.is_file fs (src_path_of a) = true →
  extract_functions fs (src_path_of a) = inr functions →
  os.path_exists fs (test_file_path_of a) = true →
  overwrite a = false →
  outcome (forge a fs) = inl (Exit 0)
  ∧ exit_status (outcome (forge a fs)) = 0%Z
  ∧ final_fs (forge a fs) = fs
  ∧ Forall (fun ev => is_echo ev = true) (events (forge a fs))
  ∧ last (events (forge a fs)) = Some (already_exists_warning a).
Proof.
  intros Hfile Hfns Hdest Hover.
  assert (os.path_exists fs (out_path_of a) = true) as Hout.
  { apply (path_exists_prefix _ _ [test_filename_of a]). exact Hdest. }
  rewrite forge_cases_eq. unfold forge_cases, output_cases.
  rewrite Hfile, (is_file_exists _ _ Hfile), Hfns, Hout, Hdest, Hover. cbn.
  repeat split.
  - unfold announce, filter_warning, found_message, not_found_warning.
    destruct (verbose a), (truthy (function_name a) && _); repeat constructor.
  - by rewrite !last_app.
Qed.

End forge_guards.

(** C10, on a project whose source file is missing. *)
Lemma forge_source_not_found_witness :
  cli.exit_status (cli.outcome (samples.sample_forge samples.forge_m samples.fs_no_source)) = 1%Z.
Proof.
  apply (forge_source_not_found samples.sample_extract samples.sample_generate
           ["home"; "user"; "project"] samples.forge_m samples.fs_no_source).
  left. vm_compute. reflexivity.
Defined.

(** C1, on a project that was forged before. *)
Lemma forge_already_exists_witness :
  cli.outcome (samples.sample_forge samples.forge_m samples.fs_forged) = inl (Exit 0)
  ∧ cli.final_fs (samples.sample_forge samples.forge_m samples.fs_forged) = samples.fs_forged.
Proof.
  destruct (forge_already_exists samples.sample_extract samples.sample_generate
              ["home"; "user"; "project"] samples.forge_m samples.fs_forged
              (core.visit_module samples.two_functions_tree))
    as (Hout & _ & Hfs & _); [vm_compute; reflexivity..|].
  split; [exact Hout | exact Hfs].
Defined.

(** C1 as first stated fails: the destination exists and no overwrite is
    asked for, but the source file is missing, and the exit status is 1. *)
Lemma forge_already_exists_counterexample :
  ¬ (∀ (a : cli.forge_args) (fs : os.node),
       os.path_exists fs (cli.test_file_path_of a) = true →
       cli.overwrite a = false →
       cli.exit_status (cli.outcome (samples.sample_forge a fs)) = 0%Z).
Proof.
  intros H. specialize (H samples.forge_m samples.fs_no_source).
  vm_compute in H. specialize (H eq_refl eq_refl). discriminate H.
Qed.

(** ** Writing the test file *)
Section forge_writing.

Import core cli.

Variable extract_functions : os.node → path → exception + list CallableDescriptor.
Variable generate_test_content : path → list CallableDescriptor → exception + string.
Variable cwd : path.

#[local] Abbreviation forge := (cli.forge extract_functions generate_test_content cwd).

(** C4. A run that completes has written exactly one file: it lies in
    the output directory, its name is [test_<stem>.py] for the stem of the
    source path, and the file is there afterwards with the generated
    text; for a source named [<s>.py] the name is [test_<s>.py]. *)
Theorem forge_test_filename (a : forge_args) (fs : os.node) :
  outcome (forge a fs) = inr tt →
  ∃ content readable writable,
    writes (events (forge a fs)) = [WriteFile (test_file_path_of a) content None]
    ∧ test_file_path_of a
      = out_path_of a ++ ["test_" +:+ pathlib.stem (src_path_of a) +:+ ".py"]
    ∧ pathlib.name (test_file_path_of a)
      = "test_" +:+ pathlib.stem (src_path_of a) +:+ ".py"
    ∧ os.lookup (final_fs (forge a fs)) (test_file_path_of a)
      = Some (os.File readable writable content)
    ∧ ∀ dir s, s ≠ "" → src_path_of a = dir ++ [s +:+ ".py"] →
        pathlib.name (test_file_path_of a) = "test_" +:+ s +:+ ".py".
Proof.
  intros Hret.
  destruct (forge_write_result extract_functions generate_test_content cwd a fs)
    as [_ Hr | content r w Hw _ Hl | content e _ Hr _ _]; [done| |congruence].
  exists content, r, w. split; [exact Hw|]. split; [reflexivity|].
  split; [apply name_snoc|]. split; [exact Hl|].
  intros dir s Hs Hsrc. unfold test_file_path_of, pathlib.div. rewrite name_snoc.
  unfold test_filename_of. by rewrite Hsrc, stem_py.
Qed.

(** C5. When writing the test file raises an [IOError], the run prints
    the error text as its last message, exits with status 1, and has made
    that one attempt only. *)
Theorem forge_write_error (a : forge_args) (fs : os.node) (p : path)
    (content : string) (e : exception) :
  In (WriteFile p content (Some e)) (events (forge a fs)) →
  is_IOError e = true
  ∧ p = test_file_path_of a
  ∧ last (events (forge a fs)) = Some (Echo (Some RED) ("Error writing file: " +:+ str e))
  ∧ writes (events (forge a fs)) = [WriteFile p content (Some e)]
  ∧ outcome (forge a fs) = inl (Exit 1)
  ∧ exit_status (outcome (forge a fs)) ≠ 0%Z.
Proof.
  intros Hin.
  assert (In (WriteFile p content (Some e)) (writes (events (forge a fs)))) as Hw.
  { apply filter_In. by split. }
  destruct (forge_write_result extract_functions generate_test_content cwd a fs)
    as [Hnone _ | content' r w Hone _ _ | content' e' Hone Hr He Hlast].
  - rewrite Hnone in Hw. destruct Hw.
  - rewrite Hone in Hw. destruct Hw as [[=]|[]].
  - rewrite Hone in Hw |- *. destruct Hw as [[= <- <- <-]|[]].
    rewrite Hr. by repeat split.
Qed.

End forge_writing.

(** C4, on a fresh project: [m.py] gives [tests/test_m.py]. *)
Lemma forge_test_filename_witness :
  ∃ content,
    cli.writes (cli.events (samples.sample_forge samples.forge_m samples.fs_project))
    = [cli.WriteFile ["tests"; "test_m.py"] content None].
Proof.
  destruct (forge_test_filename samples.sample_extract samples.sample_generate
              ["home"; "user"; "project"] samples.forge_m samples.fs_project)
    as (content & _ & _ & Hw & _); [vm_compute; reflexivity|].
  exists content. exact Hw.
Defined.

(** C5, on a project whose test directory is read-only. *)
Lemma forge_write_error_witness :
  cli.exit_status
    (cli.outcome (samples.sample_forge samples.forge_m samples.fs_readonly_tests)) ≠ 0%Z.
Proof.
  apply (forge_write_error samples.sample_extract samples.sample_generate
           ["home"; "user"; "project"] samples.forge_m samples.fs_readonly_tests
           ["tests"; "test_m.py"]
           (core.generate_test_content ["m.py"]
              (core.visit_module samples.two_functions_tree))
           (OSError PermissionError "tests/test_m.py")).
  vm_compute. left. reflexivity.
Defined.

(** ** The command on top of the analyzer and the generator *)
Section forge_pipeline.

Import core cli.

Variable parse : string → SyntaxDiagnostic + list ast.stmt.
Variable generate_test_content : path → list CallableDescriptor → exception + string.
Variable cwd : path.

(** C3. When the text of the source file is rejected by the parser,
    [extract_functions] fails with a [ParseError] that carries the
    parser's diagnostic as it is and returns no descriptors; the command
    prints that diagnostic, exits with status 1, and leaves the file
    system untouched: no directory is made, no test file written. *)
Theorem forge_syntax_error (a : forge_args) (fs : os.node) (text : string)
    (diag : SyntaxDiagnostic) :
  os.read_text fs (src_path_of a) = inr text →
  parse text = inl diag →
  extract_functions parse fs (src_path_of a) = inl (ParseError diag)
  ∧ cli.forge (extract_functions parse) generate_test_content cwd a fs
    = (inl (Exit 1), fs,
       announce cwd a ++ [Echo (Some RED) ("Error parsing file: " +:+ diag_str diag)])
  ∧ exit_status
      (outcome (cli.forge (extract_functions parse) generate_test_content cwd a fs))
    = 1%Z
  ∧ writes (events (cli.forge (extract_functions parse) generate_test_content cwd a fs))
    = [].
Proof.
  intros Hread Hparse.
  assert (extract_functions parse fs (src_path_of a) = inl (ParseError diag)) as Hext.
  { unfold extract_functions. by rewrite Hread, Hparse. }
  pose proof (read_text_is_file _ _ _ Hread) as Hfile.
  assert (cli.forge (extract_functions parse) generate_test_content cwd a fs
          = (inl (Exit 1), fs,
             announce cwd a
             ++ [Echo (Some RED) ("Error parsing file: " +:+ diag_str diag)])) as Hrun.
  { rewrite forge_cases_eq. unfold forge_cases.
    by rewrite Hfile, (is_file_exists _ _ Hfile), Hext. }
  rewrite Hrun. repeat split; [done|]. cbn.
  by rewrite writes_app, writes_announce.
Qed.

End forge_pipeline.

(** C3, on a project whose source file does not parse. *)
Lemma forge_syntax_error_witness :
  samples.sample_extract samples.fs_broken ["m.py"] = inl (ParseError samples.broken_diag)
  ∧ cli.exit_status
      (cli.outcome (samples.sample_forge samples.forge_m samples.fs_broken)) = 1%Z.
Proof.
  destruct (forge_syntax_error samples.sample_parse samples.sample_generate
              ["home"; "user"; "project"] samples.forge_m samples.fs_broken
              samples.broken_text samples.broken_diag)
    as (Hext & _ & Hstatus & _); [vm_compute; reflexivity..|].
  split; [exact Hext | exact Hstatus].
Defined.

(** ** The filter *)
Section forge_filter.

Import core cli.

Variable extract_functions : os.node → path → exception + list CallableDescriptor.
Variable generate_test_content : path → list CallableDescriptor → exception + string.
Variable cwd : path.

#[local] Abbreviation forge := (cli.forge extract_functions generate_test_content cwd).

(** What a run writes is what the generator returned for the descriptors
    that were kept. *)
Lemma output_cases_content (a : forge_args) (kept : list CallableDescriptor)
    (fs : os.node) (p : path) (content : string) (err : option exception) :
  In (WriteFile p content err) (events (output_cases generate_test_content a kept fs)) →
  generate_test_content (src_path_of a) kept = inr content.
Proof.
  intros Hin.
  assert (In (WriteFile p content err)
            (writes (events (output_cases generate_test_content a kept fs)))) as Hw.
  { apply filter_In. by split. }
  clear Hin. revert Hw. unfold output_cases.
  destruct (if os.path_exists fs (out_path_of a) then _ else _)
    as [e|[fs1 made]] eqn:Hout.
  { cbn. by rewrite writes_app, writes_found_message. }
  assert (writes made = []) as Hmade.
  { destruct (os.path_exists fs (out_path_of a)); [by injection Hout as _ <-|].
    destruct (os.mkdir_parents [] fs (out_path_of a)); [done|].
    injection Hout as _ <-. cbn. apply writes_created_message. }
  destruct (os.path_exists fs1 (test_file_path_of a) && negb (overwrite a)).
  { cbn. by rewrite !writes_app, writes_found_message, Hmade. }
  destruct (generate_test_content (src_path_of a) kept) as [e|text].
  { cbn. by rewrite !writes_app, writes_found_message, Hmade. }
  destruct (os.write_text [] fs1 (test_file_path_of a) text) as [e|fs2];
    unfold events; cbn [snd];
    rewrite !writes_app, writes_found_message, Hmade, ?writes_listing; cbn;
    intros [[= _ <- _]|[]]; reflexivity.
Qed.

Lemma forge_content (a : forge_args) (fs : os.node) (p : path) (content : string)
    (err : option exception) :
  In (WriteFile p content err) (events (forge a fs)) →
  ∃ functions,
    extract_functions fs (src_path_of a) = inr functions
    ∧ generate_test_content (src_path_of a) (selected a functions) = inr content.
Proof.
  rewrite forge_cases_eq. unfold forge_cases.
  destruct (negb _ || negb _); [by intros [[=]|[]]|].
  destruct (extract_functions fs (src_path_of a)) as [e|fns].
  { cbn. intros Hin. apply in_app_or in Hin as [Hin|[[=]|[]]].
    unfold announce in Hin. destruct (verbose a); [|done]. by destruct Hin as [[=]|[]]. }
  destruct (output_cases generate_test_content a (selected a fns) fs)
    as [[r fs'] evs] eqn:Hrun.
  cbn. intros Hin. exists fns. split; [done|].
  apply (output_cases_content a _ fs p content err). rewrite Hrun. cbn.
  apply in_app_or in Hin as [Hin|Hin].
  { unfold announce in Hin. destruct (verbose a); [|done]. by destruct Hin as [[=]|[]]. }
  apply in_app_or in Hin as [Hin|Hin]; [|done].
  unfold filter_warning in Hin. destruct (_ && _); [|done]. by destruct Hin as [[=]|[]].
Qed.

Lemma selected_none (a : forge_args) (functions : list CallableDescriptor)
    (fname : string) :
  function_name a = Some fname → fname ≠ "" →
  (∀ f, In f functions → name f ≠ fname) →
  selected a functions = [] ∧ filter_warning a [] = [not_found_warning fname].
Proof.
  intros Hname Hne Hnone. unfold selected, filter_warning, truthy. rewrite Hname. cbn.
  assert (String.eqb fname "" = false) as -> by by apply String.eqb_neq.
  cbn. split; [|done].
  induction functions as [|f fns IH]; [done|]. cbn.
  assert (String.eqb (name f) fname = false) as ->.
  { apply String.eqb_neq, Hnone. by left. }
  apply IH. intros g Hg. apply Hnone. by right.
Qed.

End forge_filter.

Section forge_not_found.

Import core cli.

Variable extract_functions : os.node → path → exception + list CallableDescriptor.
Variable cwd : path.

#[local] Abbreviation forge := (cli.forge extract_functions generate cwd).
#[local] Abbreviation forge_no_callables := (cli.forge (fun _ _ => inr []) generate cwd).

Lemma append_empty_r (s : string) : s +:+ "" = s.
Proof.
  induction s as [|c s IH]; [done|].
  change (String c s +:+ "") with (String c (s +:+ "")). by rewrite IH.
Qed.

Lemma generate_empty (source_path : path) :
  generate_test_content source_path [] = render_header (pathlib.stem source_path).
Proof. unfold generate_test_content. cbn. apply append_empty_r. Qed.

(** C2 (amended). When a non-empty [--function] name matches no
    discovered callable, the run prints the warning and goes on with the
    empty descriptor set: from there it is the run of the same command,
    without the filter, on a source with no callables.  Whatever it then
    writes is the header-only text the generator returns for the empty
    set; and when the output directory is there and the destination is
    free or may be overwritten, it does attempt that write, and returns
    if the write succeeds. *)
Theorem forge_filter_not_found (a : forge_args) (fs : os.node)
    (functions : list CallableDescriptor) (fname : string) :
  os.is_file fs (src_path_of a) = true →
  extract_functions fs (src_path_of a) = inr functions →
  function_name a = Some fname →
  fname ≠ "" →
  (∀ f, In f functions → name f ≠ fname) →
  ∃ r fs' evs,
    forge a fs = (r, fs', announce cwd a ++ not_found_warning fname :: evs)
    ∧ forge_no_callables (without_filter a) fs = (r, fs', announce cwd a ++ evs)
    ∧ (∀ p content err,
         In (WriteFile p content err) evs →
         content = generate_test_content (src_path_of a) []
         ∧ content = render_header (pathlib.stem (src_path_of a)))
    ∧ (os.path_exists fs (out_path_of a) = true →
       os.path_exists fs (test_file_path_of a) && negb (overwrite a) = false →
       ∃ err,
         writes evs
         = [WriteFile (test_file_path_of a)
                      (render_header (pathlib.stem (src_path_of a))) err]
         ∧ (err = None → r = inr tt)).
Proof.
  intros Hfile Hfns Hname Hne Hnone.
  destruct (selected_none a functions fname Hname Hne Hnone) as [Hsel Hwarn].
  destruct (output_cases generate a [] fs) as [[r fs'] evs] eqn:Hrun.
  exists r, fs', evs. split; [|split; [|split]].
  - rewrite forge_cases_eq. unfold forge_cases.
    by rewrite Hfile, (is_file_exists _ _ Hfile), Hfns, Hsel, Hwarn, Hrun.
  - rewrite forge_cases_eq. unfold forge_cases.
    change (src_path_of (without_filter a)) with (src_path_of a).
    rewrite Hfile, (is_file_exists _ _ Hfile).
    change (selected (without_filter a) []) with (@nil CallableDescriptor).
    change (output_cases generate (without_filter a) [] fs)
      with (output_cases generate a [] fs).
    by rewrite Hrun.
  - intros p content err Hin.
    assert (generate (src_path_of a) [] = inr content) as [= <-].
    { apply (output_cases_content generate a [] fs p content err). by rewrite Hrun. }
    split; [reflexivity | apply generate_empty].
  - intros Hout Hfree. revert Hrun. unfold output_cases.
    rewrite Hout, Hfree. unfold generate at 1. rewrite generate_empty.
    destruct (os.write_text [] fs (test_file_path_of a) _) as [e|fs2];
      intros [= <- <- <-]; eexists;
      (split; [unfold found_message, listing; destruct (verbose a); reflexivity | done]).
Qed.

End forge_not_found.

(** C2, on a fresh project asked for a function it does not define. *)
Lemma forge_filter_not_found_witness :
  ∃ r fs' evs,
    samples.sample_forge samples.forge_m_gamma samples.fs_project
    = (r, fs', cli.not_found_warning "gamma" :: evs).
Proof.
  destruct (forge_filter_not_found samples.sample_extract ["home"; "user"; "project"]
              samples.forge_m_gamma samples.fs_project
              (core.visit_module samples.two_functions_tree) "gamma")
    as (r & fs' & evs & Hrun & _).
  - vm_compute. reflexivity.
  - vm_compute. reflexivity.
  - reflexivity.
  - discriminate.
  - intros f [<-|[<-|[]]]; discriminate.
  - exists r, fs', evs. exact Hrun.
Defined.

(** C2 as first stated fails for the empty name: [--function ""] matches no
    callable, yet the run prints no warning and keeps every descriptor. *)
Lemma forge_filter_not_found_counterexample :
  ¬ (∀ (a : cli.forge_args) (fs : os.node) (functions : list core.CallableDescriptor)
       (fname : string),
       os.is_file fs (cli.src_path_of a) = true →
       samples.sample_extract fs (cli.src_path_of a) = inr functions →
       cli.function_name a = Some fname →
       (∀ f, In f functions → core.name f ≠ fname) →
       In (cli.not_found_warning fname) (cli.events (samples.sample_forge a fs))).
Proof.
  intros H.
  specialize (H samples.forge_m_empty_filter samples.fs_project
                (core.visit_module samples.two_functions_tree) "").
  assert (In (cli.not_found_warning "")
            (cli.events (samples.sample_forge samples.forge_m_empty_filter
                           samples.fs_project))) as Hin.
  { apply H; [vm_compute; reflexivity..|].
    intros f [<-|[<-|[]]]; discriminate. }
  vm_compute in Hin. destruct Hin as [Heq|[Heq|[Heq|[]]]]; discriminate Heq.
Qed.

(** ** What the analyzer returns *)
Section analyzer_claims.

Import core.

Variable parse : string → SyntaxDiagnostic + list ast.stmt.


(** C6. For a source file whose text parses, [extract_functions] returns
    the public surface of the tree: its length is the number of
    module-level function definitions plus the number of method
    definitions directly in module-level classes, and the walk emits
    nothing from inside a function body. *)
Theorem extract_functions_length (fs : os.node) (p : path) (text : string)
    (tree : list ast.stmt) :
  os.read_text fs p = inr text →
  parse text = inr tree →
  ∃ ds,
    extract_functions parse fs p = inr ds
    ∧ ds = surface tree
    ∧ length ds = module_level_defs tree + class_method_defs tree
    ∧ (∀ body, flat_map (visit FunctionScope) body = [])
    ∧ (∀ sc async nm a body decs line,
         length (visit sc (ast.FunctionDef async nm a body decs line)) ≤ 1).
Proof.
  intros Hread Hparse. exists (visit_module tree).
  split; [unfold extract_functions; by rewrite Hread, Hparse|].
  split; [apply visit_module_surface|].
  split; [rewrite visit_module_surface; apply length_surface|].
  split; [apply visit_body_function_scope|].
  intros sc async nm a body decs line. cbn [visit].
  rewrite visit_body_function_scope, app_nil_r. destruct sc; cbn; lia.
Qed.


End analyzer_claims.

(** C6, on the source with nested definitions: [outer], [get] and [put]
    are emitted, [inner], [helper] and [lift] are not. *)
Lemma extract_functions_length_witness :
  ∃ ds,
    samples.sample_extract samples.fs_nested ["box.py"] = inr ds
    ∧ core.name <$> ds = ["outer"; "get"; "put"].
Proof.
  destruct (extract_functions_length samples.sample_parse samples.fs_nested ["box.py"]
              samples.nested_text samples.nested_tree)
    as (ds & Hds & -> & _); [vm_compute; reflexivity..|].
  exists (core.surface samples.nested_tree). split; [exact Hds | reflexivity].
Defined.


(** C8. For [def f(a, b=1, *args, c, **kw)] the analyzer yields one
    descriptor with exactly five parameters, in the declared order, of
    kinds positional-or-keyword, positional-or-keyword, var-positional,
    keyword-only, var-keyword, and only [b] has a default. *)
Theorem extract_functions_signature :
  ∃ d,
    core.extract_functions samples.sample_parse samples.fs_signature ["sig.py"] = inr [d]
    ∧ core.parameters d = core.extract_parameters samples.signature_arguments
    ∧ length (core.parameters d) = 5
    ∧ core.param_name <$> core.parameters d = ["a"; "b"; "args"; "c"; "kw"]
    ∧ core.kind <$> core.parameters d
      = [core.POSITIONAL_OR_KEYWORD; core.POSITIONAL_OR_KEYWORD; core.VAR_POSITIONAL;
         core.KEYWORD_ONLY; core.VAR_KEYWORD]
    ∧ core.default <$> core.parameters d = [None; Some "1"; None; None; None].
Proof. eexists. repeat split; vm_compute; reflexivity. Qed.

(** ** The names of the generated tests *)
Section generator_claims.

Import core.


End generator_claims.


(** * Further properties of the command *)

(** ** What the system calls leave in place *)
Section os_frame.

Import os.

Lemma lookup_fresh_dirs (p : path) : lookup (fresh_dirs p) p = Some (Dir true ∅).
Proof.
  induction p as [|c p IH]; [done|]. cbn. by rewrite lookup_singleton_eq.
Qed.

(** Making directories changes no file. *)
Lemma mkdir_parents_file (pre : path) (n n' : node) (p q : path)
    (r w : bool) (t : string) :
  mkdir_parents pre n p = inr n' →
  lookup n q = Some (File r w t) →
  lookup n' q = Some (File r w t).
Proof.
  revert pre n n' q. induction p as [|c p IH]; intros pre n n' q; [done|]. cbn.
  destruct n as [r0 w0 t0 | w0 es]; [done|].
  destruct (es !! c) as [child|] eqn:Hc.
  - destruct (mkdir_parents (pre ++ [c]) child p) as [e|child'] eqn:Hm; [done|].
    intros [= <-]. destruct q as [|d q]; [done|]. cbn.
    destruct (decide (c = d)) as [<-|Hne].
    + rewrite Hc, lookup_insert_eq. by apply IH with (pre := pre ++ [c]).
    + by rewrite lookup_insert_ne.
  - destruct w0; [|done]. intros [= <-]. destruct q as [|d q]; [done|]. cbn.
    destruct (decide (c = d)) as [<-|Hne]; [by rewrite Hc|].
    by rewrite lookup_insert_ne.
Qed.

(** Making directories removes nothing. *)
Lemma mkdir_parents_exists (pre : path) (n n' : node) (p q : path) :
  mkdir_parents pre n p = inr n' →
  path_exists n q = true →
  path_exists n' q = true.
Proof.
  unfold path_exists.
  revert pre n n' q. induction p as [|c p IH]; intros pre n n' q; [done|]. cbn.
  destruct n as [r0 w0 t0 | w0 es]; [done|].
  destruct (es !! c) as [child|] eqn:Hc.
  - destruct (mkdir_parents (pre ++ [c]) child p) as [e|child'] eqn:Hm; [done|].
    intros [= <-]. destruct q as [|d q]; [done|]. cbn.
    destruct (decide (c = d)) as [<-|Hne].
    + rewrite Hc, lookup_insert_eq. by apply IH with (pre := pre ++ [c]).
    + by rewrite lookup_insert_ne.
  - destruct w0; [|done]. intros [= <-]. destruct q as [|d q]; [done|]. cbn.
    destruct (decide (c = d)) as [<-|Hne]; [by rewrite Hc|].
    by rewrite lookup_insert_ne.
Qed.

(** A directory that was made where nothing was is there, writable and
    empty. *)
Lemma mkdir_parents_fresh (pre : path) (n n' : node) (p : path) :
  lookup n p = None →
  mkdir_parents pre n p = inr n' →
  lookup n' p = Some (Dir true ∅).
Proof.
  revert pre n n'. induction p as [|c p IH]; intros pre n n'; [done|]. cbn.
  destruct n as [r0 w0 t0 | w0 es]; [done|].
  destruct (es !! c) as [child|] eqn:Hc.
  - destruct (mkdir_parents (pre ++ [c]) child p) as [e|child'] eqn:Hm; [done|].
    intros Hnone [= <-]. rewrite lookup_insert_eq. by apply (IH (pre ++ [c]) child).
  - destruct w0; [|done]. intros _ [= <-]. rewrite lookup_insert_eq.
    apply lookup_fresh_dirs.
Qed.

Lemma mkdir_parents_error (pre : path) (n : node) (p : path) (e : exception) :
  mkdir_parents pre n p = inl e → is_IOError e = true.
Proof.
  revert pre n. induction p as [|c p IH]; intros pre n; cbn; [by intros [= <-]|].
  destruct n as [r0 w0 t0 | w0 es]; [by intros [= <-]|].
  destruct (es !! c) as [child|].
  - destruct (mkdir_parents (pre ++ [c]) child p) as [e'|child'] eqn:Hm; [|done].
    intros [= <-]. eauto.
  - destruct w0; [done|]. by intros [= <-].
Qed.

(** Where the target is not there, making it fails for one of two
    reasons. *)
Lemma mkdir_parents_error_kind (pre : path) (n : node) (p : path) (e : exception) :
  lookup n p = None →
  mkdir_parents pre n p = inl e →
  ∃ filename, e = OSError PermissionError filename
              ∨ e = OSError NotADirectoryError filename.
Proof.
  revert pre n. induction p as [|c p IH]; intros pre n; [done|]. cbn.
  destruct n as [r0 w0 t0 | w0 es]; [intros _ [= <-]; eauto|].
  destruct (es !! c) as [child|].
  - destruct (mkdir_parents (pre ++ [c]) child p) as [e'|child'] eqn:Hm; [|done].
    intros Hnone [= <-]. by apply (IH (pre ++ [c]) child).
  - destruct w0; [done|]. intros _ [= <-]. eauto.
Qed.

(** Writing a file changes no other file. *)
Lemma write_text_file_other (pre : path) (n n' : node) (p q : path) (text : string)
    (r w : bool) (t : string) :
  write_text pre n p text = inr n' →
  q ≠ p →
  lookup n q = Some (File r w t) →
  lookup n' q = Some (File r w t).
Proof.
  revert pre n n' q. induction p as [|c p IH]; intros pre n n' q; cbn.
  - destruct n as [r0 w0 t0 | w0 es]; [|done].
    destruct w0; [|done]. intros _ Hq. by destruct q.
  - destruct n as [r0 w0 t0 | w0 es]; [done|].
    destruct (es !! c) as [child|] eqn:Hc.
    + destruct (write_text (pre ++ [c]) child p text) as [e|child'] eqn:Hw; [done|].
      intros [= <-] Hq. destruct q as [|d q]; [done|]. cbn.
      destruct (decide (c = d)) as [<-|Hne].
      * rewrite Hc, lookup_insert_eq. apply IH with (pre := pre ++ [c]); [done|].
        congruence.
      * by rewrite lookup_insert_ne.
    + destruct p as [|c' p]; [|done]. destruct w0; [|done].
      intros [= <-] Hq. destruct q as [|d q]; [done|]. cbn.
      destruct (decide (c = d)) as [<-|Hne]; [by rewrite Hc|].
      by rewrite lookup_insert_ne.
Qed.

(** Writing a file removes nothing. *)
Lemma write_text_exists (pre : path) (n n' : node) (p q : path) (text : string) :
  write_text pre n p text = inr n' →
  path_exists n q = true →
  path_exists n' q = true.
Proof.
  unfold path_exists.
  revert pre n n' q. induction p as [|c p IH]; intros pre n n' q; cbn.
  - destruct n as [r0 w0 t0 | w0 es]; [|done].
    destruct w0; [|done]. intros [= <-]. by destruct q.
  - destruct n as [r0 w0 t0 | w0 es]; [done|].
    destruct (es !! c) as [child|] eqn:Hc.
    + destruct (write_text (pre ++ [c]) child p text) as [e|child'] eqn:Hw; [done|].
      intros [= <-]. destruct q as [|d q]; [done|]. cbn.
      destruct (decide (c = d)) as [<-|Hne].
      * rewrite Hc, lookup_insert_eq. by apply IH with (pre := pre ++ [c]).
      * by rewrite lookup_insert_ne.
    + destruct p as [|c' p]; [|done]. destruct w0; [|done].
      intros [= <-]. destruct q as [|d q]; [done|]. cbn.
      destruct (decide (c = d)) as [<-|Hne]; [by rewrite Hc|].
      by rewrite lookup_insert_ne.
Qed.

(** A writable file can be rewritten; its permissions stay. *)
Lemma write_text_existing (pre : path) (n : node) (p : path) (text old : string)
    (r : bool) :
  lookup n p = Some (File r true old) →
  ∃ n', write_text pre n p text = inr n' ∧ lookup n' p = Some (File r true text).
Proof.
  revert pre n. induction p as [|c p IH]; intros pre n; cbn.
  - intros [= ->]. eauto.
  - destruct n as [r0 w0 t0 | w0 es]; [done|].
    destruct (es !! c) as [child|] eqn:Hc; [|done].
    intros Hl. destruct (IH (pre ++ [c]) child Hl) as (child' & -> & Hl').
    eexists. split; [done|]. cbn. by rewrite lookup_insert_eq.
Qed.

(** A new file can be written into a writable directory. *)
Lemma write_text_new (pre : path) (n : node) (p : path) (c text : string)
    (es : gmap string node) :
  lookup n p = Some (Dir true es) →
  es !! c = None →
  ∃ n', write_text pre n (p ++ [c]) text = inr n'
        ∧ lookup n' (p ++ [c]) = Some (File true true text).
Proof.
  revert pre n. induction p as [|d p IH]; intros pre n; cbn.
  - intros [= ->] ->. eexists. split; [done|]. cbn. by rewrite lookup_insert_eq.
  - destruct n as [r0 w0 t0 | w0 es0]; [done|].
    destruct (es0 !! d) as [child|] eqn:Hd; [|done].
    intros Hl Hc. destruct (IH (pre ++ [d]) child Hl Hc) as (child' & -> & Hl').
    eexists. split; [done|]. cbn. by rewrite lookup_insert_eq.
Qed.

(** Below a regular file nothing can be written. *)
Lemma write_text_below_file (pre : path) (n : node) (p : path) (c text : string)
    (r w : bool) (t : string) :
  lookup n p = Some (File r w t) →
  write_text pre n (p ++ [c]) text
  = inl (OSError NotADirectoryError (pathlib.path_str (pre ++ p ++ [c]))).
Proof.
  revert pre n. induction p as [|d p IH]; intros pre n; cbn.
  - by intros [= ->].
  - destruct n as [r0 w0 t0 | w0 es0]; [done|].
    destruct (es0 !! d) as [child|] eqn:Hd; [|done].
    intros Hl. rewrite (IH (pre ++ [d]) child Hl). by rewrite <- app_assoc.
Qed.

(** Writing the same text again changes nothing. *)
Lemma write_text_again (pre pre' : path) (n n' : node) (p : path) (text : string) :
  write_text pre n p text = inr n' →
  write_text pre' n' p text = inr n'.
Proof.
  revert pre pre' n n'. induction p as [|c p IH]; intros pre pre' n n'; cbn.
  - destruct n as [r0 w0 t0 | w0 es]; [|done].
    destruct w0; [|done]. by intros [= <-].
  - destruct n as [r0 w0 t0 | w0 es]; [done|].
    destruct (es !! c) as [child|] eqn:Hc.
    + destruct (write_text (pre ++ [c]) child p text) as [e|child'] eqn:Hw; [done|].
      intros [= <-]. rewrite lookup_insert_eq.
      rewrite (IH _ (pre' ++ [c]) _ _ Hw). by rewrite insert_insert_eq.
    + destruct p as [|c' p]; [|done]. destruct w0; [|done].
      intros [= <-]. rewrite lookup_insert_eq. cbn. by rewrite insert_insert_eq.
Qed.

End os_frame.

(** ** The test file is never the source file *)
Section test_file_path_facts.

Import pathlib cli.

Lemma append_assoc (s t u : string) : (s +:+ t) +:+ u = s +:+ (t +:+ u).
Proof.
  induction s as [|c s IH]; [done|].
  change (String c s +:+ t) with (String c (s +:+ t)).
  change (String c (s +:+ t) +:+ u) with (String c ((s +:+ t) +:+ u)).
  change (String c s +:+ (t +:+ u)) with (String c (s +:+ (t +:+ u))).
  by rewrite IH.
Qed.

(** The stem is read off the name alone. *)
Lemma stem_of_name (p : path) (s : string) :
  name p = s +:+ ".py" → s ≠ "" → stem p = s.
Proof.
  intros Hname Hs. unfold stem. rewrite Hname, rfind_dot_py, length_append.
  destruct s as [|c s]; [done|].
  assert ((0 <? String.length (String c s)) = true) as ->
    by (apply Nat.ltb_lt; cbn; lia).
  assert ((String.length (String c s)
             <? String.length (String c s) + String.length ".py" - 1) = true) as ->
    by (apply Nat.ltb_lt; cbn; lia).
  apply substring_prefix.
Qed.

(** No name is its own test file name. *)
Lemma test_filename_ne_name (a : forge_args) :
  test_filename_of a ≠ name (src_path_of a).
Proof.
  unfold test_filename_of. intros Heq.
  assert (stem (src_path_of a) = "test_" +:+ stem (src_path_of a)) as Hstem.
  { apply stem_of_name; [|done]. by rewrite append_assoc. }
  apply (f_equal String.length) in Hstem. rewrite length_append in Hstem.
  cbn in Hstem. lia.
Qed.

Lemma test_file_path_ne_src (a : forge_args) : src_path_of a ≠ test_file_path_of a.
Proof.
  intros Heq. apply (test_filename_ne_name a).
  rewrite Heq. unfold test_file_path_of, div. by rewrite name_snoc.
Qed.

End test_file_path_facts.

(** ** What a run leaves in place *)
Section forge_frame.

Import core cli.

Variable extract_functions : os.node → path → exception + list CallableDescriptor.
Variable generate_test_content : path → list CallableDescriptor → exception + string.
Variable cwd : path.

#[local] Abbreviation forge := (cli.forge extract_functions generate_test_content cwd).
#[local] Abbreviation output_cases := (cli.output_cases generate_test_content).

(** What holds of the file system before a run, and is kept by making
    the output directory and by writing the test file, holds after it. *)
Lemma output_cases_fs_invariant (P : os.node → Prop) (a : forge_args)
    (kept : list CallableDescriptor) (fs : os.node) :
  P fs →
  (∀ n n', P n → os.mkdir_parents [] n (out_path_of a) = inr n' → P n') →
  (∀ n n' text, P n → os.write_text [] n (test_file_path_of a) text = inr n' → P n') →
  P (final_fs (output_cases a kept fs)).
Proof.
  intros Hfs Hmk Hwr. unfold cli.output_cases.
  destruct (os.path_exists fs (out_path_of a)).
  - destruct (_ && _); [done|].
    destruct (generate_test_content _ _) as [e|content]; [done|].
    destruct (os.write_text [] fs (test_file_path_of a) content) as [e|fs2] eqn:Hw;
      [done|]. by apply (Hwr fs fs2 content).
  - destruct (os.mkdir_parents [] fs (out_path_of a)) as [e|fs1] eqn:Hm; [done|].
    assert (P fs1) as Hfs1 by by apply (Hmk fs fs1).
    destruct (_ && _); [done|].
    destruct (generate_test_content _ _) as [e|content]; [done|].
    destruct (os.write_text [] fs1 (test_file_path_of a) content) as [e|fs2] eqn:Hw;
      [done|]. by apply (Hwr fs1 fs2 content).
Qed.

Lemma forge_fs_invariant (P : os.node → Prop) (a : forge_args) (fs : os.node) :
  P fs →
  (∀ n n', P n → os.mkdir_parents [] n (out_path_of a) = inr n' → P n') →
  (∀ n n' text, P n → os.write_text [] n (test_file_path_of a) text = inr n' → P n') →
  P (final_fs (forge a fs)).
Proof.
  intros Hfs Hmk Hwr. rewrite forge_cases_eq. unfold cli.forge_cases.
  destruct (negb _ || negb _); [done|].
  destruct (extract_functions fs (src_path_of a)) as [e|fns]; [done|].
  pose proof (output_cases_fs_invariant P a (selected a fns) fs Hfs Hmk Hwr) as Hout.
  by destruct (output_cases a (selected a fns) fs) as [[r fs'] evs].
Qed.

(** When the output directory is given relative to the working directory
    and without [..], a run changes no file other than the test file:
    whatever file was at another path of entry names is there afterwards,
    with the same permissions and text. *)
Theorem forge_keeps_other_files (a : forge_args) (fs : os.node) (q : path)
    (r w : bool) (t : string) :
  plain_output a = true →
  pathlib.normal q = true →
  os.lookup fs q = Some (os.File r w t) →
  q ≠ test_file_path_of a →
  os.lookup (final_fs (forge a fs)) q = Some (os.File r w t).
Proof.
  intros _ _ Hq Hne.
  apply (forge_fs_invariant (fun n => os.lookup n q = Some (os.File r w t))); [done|..].
  - intros n n' Hn Hm. by apply (mkdir_parents_file _ _ _ _ _ _ _ _ Hm).
  - intros n n' text Hn Hw. by apply (write_text_file_other _ _ _ _ _ _ _ _ _ Hw).
Qed.

(** A run removes nothing: every path that resolved before it resolves
    after it. *)
Theorem forge_removes_nothing (a : forge_args) (fs : os.node) (q : path) :
  os.path_exists fs q = true →
  os.path_exists (final_fs (forge a fs)) q = true.
Proof.
  intros Hq.
  apply (forge_fs_invariant (fun n => os.path_exists n q = true)); [done|..].
  - intros n n' Hn Hm. by apply (mkdir_parents_exists _ _ _ _ _ Hm).
  - intros n n' text Hn Hw. by apply (write_text_exists _ _ _ _ _ _ Hw).
Qed.

(** A run never touches its source: what the source path resolves to is
    the same before and after, whatever the output directory and the
    overwrite directive are. *)
Theorem forge_keeps_source (a : forge_args) (fs : os.node) :
  os.lookup (final_fs (forge a fs)) (src_path_of a) = os.lookup fs (src_path_of a)
  ∧ os.read_text (final_fs (forge a fs)) (src_path_of a)
    = os.read_text fs (src_path_of a).
Proof.
  assert (os.lookup (final_fs (forge a fs)) (src_path_of a)
          = os.lookup fs (src_path_of a)) as Hsame.
  { destruct (os.is_file fs (src_path_of a)) eqn:Hfile.
    - unfold os.is_file in Hfile.
      destruct (os.lookup fs (src_path_of a)) as [[r w t|w es]|] eqn:Hl; [|done..].
      apply (forge_fs_invariant (fun n => os.lookup n (src_path_of a)
                                          = Some (os.File r w t))); [done|..].
      + intros n n' Hn Hm. by apply (mkdir_parents_file _ _ _ _ _ _ _ _ Hm).
      + intros n n' text Hn Hw.
        apply (write_text_file_other _ _ _ _ _ _ _ _ _ Hw); [|done].
        apply test_file_path_ne_src.
    - rewrite forge_cases_eq. unfold cli.forge_cases. rewrite Hfile.
      by rewrite orb_true_r. }
  split; [exact Hsame|]. unfold os.read_text. by rewrite Hsame.
Qed.

End forge_frame.

(** The first run on a fresh project leaves [m.py] as it was. *)
Lemma forge_keeps_other_files_witness :
  os.lookup (cli.final_fs (samples.sample_forge samples.forge_m samples.fs_project))
            ["m.py"]
  = Some (samples.file samples.two_functions_text).
Proof.
  apply (forge_keeps_other_files samples.sample_extract samples.sample_generate
           ["home"; "user"; "project"] samples.forge_m samples.fs_project ["m.py"]
           true true samples.two_functions_text).
  - vm_compute. reflexivity.
  - vm_compute. reflexivity.
  - vm_compute. reflexivity.
  - vm_compute. discriminate.
Defined.

(** Overwriting the test file keeps the test directory and the source. *)
Lemma forge_removes_nothing_witness :
  os.path_exists
    (cli.final_fs (samples.sample_forge samples.forge_m_overwrite samples.fs_forged))
    ["tests"; "test_m.py"] = true.
Proof.
  apply (forge_removes_nothing samples.sample_extract samples.sample_generate
           ["home"; "user"; "project"] samples.forge_m_overwrite samples.fs_forged
           ["tests"; "test_m.py"]).
  vm_compute. reflexivity.
Defined.

(** ** What [--verbose] adds *)
Section forge_verbose.

Import core cli.

Variable extract_functions : os.node → path → exception + list CallableDescriptor.
Variable generate_test_content : path → list CallableDescriptor → exception + string.
Variable cwd : path.

#[local] Abbreviation forge := (cli.forge extract_functions generate_test_content cwd).

Lemma essential_plain {A} (f : A → string) (l : list A) :
  List.filter (fun ev => negb (is_plain_echo ev)) ((fun x => Echo None (f x)) <$> l) = [].
Proof. induction l as [|x l IH]; [done|]. exact IH. Qed.

(** The quiet run decides the outcome, the file system and every event
    that is not an uncoloured message. *)
Lemma forge_quiet (a : forge_args) (fs : os.node) :
  outcome (forge a fs) = outcome (forge (quiet a) fs)
  ∧ final_fs (forge a fs) = final_fs (forge (quiet a) fs)
  ∧ essential (events (forge a fs)) = events (forge (quiet a) fs).
Proof.
  rewrite !forge_cases_eq. destruct a as [sf fn od ow v].
  unfold cli.forge_cases, cli.output_cases, announce, selected, filter_warning,
    found_message, created_message, listing, already_exists_warning, not_found_warning,
    quiet, essential, outcome, final_fs, events.
  unfold test_file_path_of, test_filename_of, out_path_of, src_path_of.
  cbn [source_file function_name output_dir overwrite verbose].
  generalize (pathlib.Path "tests"); intros default_out.
  destruct (negb (os.path_exists fs (pathlib.Path sf)) || negb (os.is_file fs (pathlib.Path sf)));
    [done|].
  destruct (extract_functions fs (pathlib.Path sf)) as [e|fns]; [by destruct v|].
  destruct (truthy fn); cbn.
  all: repeat case_bool_decide; cbn.
  all: destruct (truthy od); cbn.
  all: repeat match goal with
    | |- context [os.path_exists ?f ?p] => destruct (os.path_exists f p) eqn:?; cbn
    | |- context [os.mkdir_parents ?x ?f ?p] => destruct (os.mkdir_parents x f p) eqn:?; cbn
    | |- context [generate_test_content ?p ?l] =>
        destruct (generate_test_content p l) eqn:?; cbn
    | |- context [os.write_text ?x ?f ?p ?t] => destruct (os.write_text x f p t) eqn:?; cbn
    end.
  all: destruct ow, v; cbn; rewrite ?essential_plain; done.
Qed.

(** [--verbose] changes neither what a run does nor how it ends: the
    outcome, the file system afterwards, and all events other than
    uncoloured messages are those of the run without it. *)
Theorem forge_verbose_only_prints (a : forge_args) (fs : os.node) :
  outcome (forge a fs) = outcome (forge (quiet a) fs)
  ∧ exit_status (outcome (forge a fs)) = exit_status (outcome (forge (quiet a) fs))
  ∧ final_fs (forge a fs) = final_fs (forge (quiet a) fs)
  ∧ essential (events (forge a fs)) = essential (events (forge (quiet a) fs))
  ∧ Forall (fun ev => is_plain_echo ev = false) (events (forge (quiet a) fs)).
Proof.
  destruct (forge_quiet a fs) as (Hout & Hfs & Hev).
  destruct (forge_quiet (quiet a) fs) as (_ & _ & Hev').
  change (quiet (quiet a)) with (quiet a) in Hev'.
  split; [done|]. split; [by rewrite Hout|]. split; [done|].
  split; [by rewrite Hev, Hev'|].
  rewrite <- Hev'. unfold essential. apply Forall_forall. intros ev Hin.
  apply list_elem_of_In, filter_In in Hin as [_ Hin]. by destruct (is_plain_echo ev).
Qed.

End forge_verbose.

(** ** How a run ends *)
Section forge_outcomes.

Import core cli.

Variable extract_functions : os.node → path → exception + list CallableDescriptor.
Variable generate_test_content : path → list CallableDescriptor → exception + string.
Variable cwd : path.

#[local] Abbreviation forge := (cli.forge extract_functions generate_test_content cwd).

(** The quiet run, case by case, with its events written out. *)
Lemma forge_quiet_cases (a : forge_args) (fs : os.node) :
  forge (quiet a) fs
  = if negb (os.path_exists fs (src_path_of a)) || negb (os.is_file fs (src_path_of a))
    then (inl (Exit 1), fs,
          [Echo (Some RED) ("Error: Source file '" +:+ source_file a +:+ "' not found.")])
    else
      match extract_functions fs (src_path_of a) with
      | inl e => (inl (Exit 1), fs, [Echo (Some RED) ("Error parsing file: " +:+ str e)])
      | inr functions =>
          let kept := selected a functions in
          let warned := filter_warning a kept in
          match (if os.path_exists fs (out_path_of a) then inr (fs, [])
                 else match os.mkdir_parents [] fs (out_path_of a) with
                      | inl e => inl e
                      | inr fs1 => inr (fs1, [Mkdir (out_path_of a) None])
                      end) with
          | inl e => (inl e, fs, warned ++ [Mkdir (out_path_of a) (Some e)])
          | inr (fs1, made) =>
              if os.path_exists fs1 (test_file_path_of a) && negb (overwrite a) then
                (inl (Exit 0), fs1, warned ++ made ++ [already_exists_warning a])
              else
                match generate_test_content (src_path_of a) kept with
                | inl e => (inl e, fs1, warned ++ made)
                | inr content =>
                    match os.write_text [] fs1 (test_file_path_of a) content with
                    | inl e =>
                        (inl (Exit 1), fs1,
                         warned ++ made
                         ++ [WriteFile (test_file_path_of a) content (Some e);
                             Echo (Some RED) ("Error writing file: " +:+ str e)])
                    | inr fs2 =>
                        (inr tt, fs2,
                         warned ++ made
                         ++ [WriteFile (test_file_path_of a) content None;
                             success_message a])
                    end
                end
          end
      end.
Proof.
  rewrite forge_cases_eq. unfold cli.forge_cases, cli.output_cases.
  change (src_path_of (quiet a)) with (src_path_of a).
  change (out_path_of (quiet a)) with (out_path_of a).
  change (test_file_path_of (quiet a)) with (test_file_path_of a).
  change (source_file (quiet a)) with (source_file a).
  change (overwrite (quiet a)) with (overwrite a).
  change (announce cwd (quiet a)) with (@nil event).
  destruct (negb _ || negb _); [done|].
  destruct (extract_functions fs (src_path_of a)) as [e|fns]; [done|].
  change (selected (quiet a) fns) with (selected a fns).
  change (filter_warning (quiet a) (selected a fns))
    with (filter_warning a (selected a fns)).
  change (found_message (quiet a) (selected a fns)) with (@nil event).
  change (created_message (quiet a)) with (@nil event).
  change (listing (quiet a) (selected a fns)) with (@nil event).
  change (already_exists_warning (quiet a)) with (already_exists_warning a).
  cbn [app].
  destruct (os.path_exists fs (out_path_of a)).
  - destruct (_ && _); [done|].
    destruct (generate_test_content _ _); [by rewrite app_nil_r|].
    by destruct (os.write_text _ _ _ _).
  - destruct (os.mkdir_parents _ _ _) as [e|fs1]; [done|].
    destruct (_ && _); [done|].
    destruct (generate_test_content _ _); [done|].
    by destruct (os.write_text _ _ _ _).
Qed.

(** An event that is not an uncoloured message is in a run exactly when
    it is in the quiet run. *)
Lemma forge_essential_event (a : forge_args) (fs : os.node) (ev : event) :
  is_plain_echo ev = false →
  In ev (events (forge a fs)) ↔ In ev (events (forge (quiet a) fs)).
Proof.
  intros Hev. destruct (forge_quiet extract_functions generate_test_content cwd a fs)
    as (_ & _ & <-).
  unfold essential. rewrite filter_In, Hev. tauto.
Qed.

End forge_outcomes.

Section forge_endings.

Import core cli.

Variable extract_functions : os.node → path → exception + list CallableDescriptor.
Variable generate_test_content : path → list CallableDescriptor → exception + string.
Variable cwd : path.

#[local] Abbreviation forge := (cli.forge extract_functions generate_test_content cwd).

Lemma filter_warning_yellow (a : forge_args) (kept : list CallableDescriptor)
    (ev : event) :
  In ev (filter_warning a kept) → ∃ m, ev = Echo (Some YELLOW) m.
Proof.
  unfold filter_warning, not_found_warning.
  destruct (_ && _); [|done]. intros [<-|[]]. eauto.
Qed.

Lemma exit_status_IOError (e : exception) :
  is_IOError e = true → exit_status (inl e) = 1%Z ∧ ∀ c, e ≠ Exit c.
Proof. by destruct e. Qed.

Lemma exit_status_not_Exit (e : exception) :
  (∀ c, e ≠ Exit c) → exit_status (inl e) = 1%Z.
Proof. destruct e; [done..|]. intros H. by destruct (H code). Qed.

(** When the generator does not raise [typer.Exit] itself, a run ends
    with exit status 0 or 1; status 0 means the test file is there
    afterwards; and the run ends through [typer.Exit(1)] exactly when it
    has printed a red error message. *)
Theorem forge_exit_status (a : forge_args) (fs : os.node) :
  (∀ p ds c, generate_test_content p ds ≠ inl (Exit c)) →
  (exit_status (outcome (forge a fs)) = 0%Z ∨ exit_status (outcome (forge a fs)) = 1%Z)
  ∧ (exit_status (outcome (forge a fs)) = 0%Z →
     os.path_exists (final_fs (forge a fs)) (test_file_path_of a) = true)
  ∧ (outcome (forge a fs) = inl (Exit 1)
     ↔ ∃ m, In (Echo (Some RED) m) (events (forge a fs))).
Proof.
  intros Hgen.
  assert (∀ m, In (Echo (Some RED) m) (events (forge a fs))
               ↔ In (Echo (Some RED) m) (events (forge (quiet a) fs))) as Hred.
  { intros m. by apply forge_essential_event. }
  destruct (forge_quiet extract_functions generate_test_content cwd a fs)
    as (-> & -> & _).
  setoid_rewrite Hred. clear Hred.
  rewrite forge_quiet_cases. unfold outcome, final_fs, events.
  destruct (negb _ || negb _).
  { cbn. split; [by right|]. split; [done|]. split; [eauto|done]. }
  destruct (extract_functions fs (src_path_of a)) as [e|fns].
  { cbn. split; [by right|]. split; [done|]. split; [eauto|done]. }
  cbn zeta.
  assert (∀ m, ¬ In (Echo (Some RED) m) (filter_warning a (selected a fns))) as Hwarn.
  { intros m Hin. by apply filter_warning_yellow in Hin as [m' [=]]. }
  destruct (if os.path_exists fs (out_path_of a) then _ else _)
    as [e|[fs1 made]] eqn:Hout.
  { assert (is_IOError e = true) as He.
    { destruct (os.path_exists fs (out_path_of a)); [done|].
      destruct (os.mkdir_parents [] fs (out_path_of a)) eqn:Hm; [|done].
      injection Hout as <-. by apply mkdir_parents_error in Hm. }
    destruct (exit_status_IOError e He) as [Hst Hexit]. cbn [fst snd].
    rewrite Hst. split; [by right|]. split; [done|]. split.
    - intros [= ->]. by destruct (Hexit 1%Z).
    - intros [m Hin]. apply in_app_or in Hin as [Hin|[[=]|[]]]. by destruct (Hwarn m). }
  assert (∀ m, ¬ In (Echo (Some RED) m) made) as Hmade.
  { intros m. destruct (os.path_exists fs (out_path_of a)).
    - injection Hout as _ <-. intros [].
    - destruct (os.mkdir_parents [] fs (out_path_of a)); [done|].
      injection Hout as _ <-. by intros [[=]|[]]. }
  destruct (os.path_exists fs1 (test_file_path_of a) && negb (overwrite a)) eqn:Hskip.
  { cbn [fst snd]. split; [by left|]. split.
    - intros _. by apply andb_true_iff in Hskip as [? _].
    - split; [done|]. intros [m Hin].
      apply in_app_or in Hin as [Hin|Hin]; [by destruct (Hwarn m)|].
      apply in_app_or in Hin as [Hin|[[=]|[]]]. by destruct (Hmade m). }
  destruct (generate_test_content (src_path_of a) (selected a fns)) as [e|content] eqn:Hg.
  { cbn [fst snd]. rewrite exit_status_not_Exit.
    - split; [by right|]. split; [done|]. split.
      + intros [= ->]. by destruct (Hgen _ _ _ Hg).
      + intros [m Hin]. apply in_app_or in Hin as [Hin|Hin]; [by destruct (Hwarn m)|].
        by destruct (Hmade m).
    - intros c ->. by destruct (Hgen _ _ _ Hg). }
  destruct (os.write_text [] fs1 (test_file_path_of a) content) as [e|fs2] eqn:Hw;
    cbn [fst snd].
  - split; [by right|]. split; [done|]. split; [|done]. intros _.
    exists ("Error writing file: " +:+ str e).
    apply in_or_app. right. apply in_or_app. right. right. by left.
  - split; [by left|]. split.
    + intros _. destruct (write_text_lookup _ _ _ _ _ Hw) as (r & w & Hl).
      unfold os.path_exists. by rewrite Hl.
    + split; [done|]. intros [m Hin].
      apply in_app_or in Hin as [Hin|Hin]; [by destruct (Hwarn m)|].
      apply in_app_or in Hin as [Hin|[[=]|[[=]|[]]]]. by destruct (Hmade m).
Qed.

(** The success message is printed exactly when the command returns, and
    then the test file has been written: no run says it forged a file it
    did not write. *)
Theorem forge_success_message (a : forge_args) (fs : os.node) :
  (In (success_message a) (events (forge a fs)) ↔ outcome (forge a fs) = inr tt)
  ∧ (∀ m, In (Echo (Some GREEN) m) (events (forge a fs)) →
       Echo (Some GREEN) m = success_message a
       ∧ ∃ content readable writable,
           In (WriteFile (test_file_path_of a) content None) (events (forge a fs))
           ∧ os.lookup (final_fs (forge a fs)) (test_file_path_of a)
             = Some (os.File readable writable content)).
Proof.
  assert (∀ m, In (Echo (Some GREEN) m) (events (forge a fs)) →
               Echo (Some GREEN) m = success_message a
               ∧ outcome (forge a fs) = inr tt) as Hgreen.
  { intros m Hin. apply forge_essential_event in Hin; [|done].
    destruct (forge_quiet extract_functions generate_test_content cwd a fs)
      as (-> & _ & _).
    revert Hin. rewrite forge_quiet_cases. unfold outcome, events.
    destruct (negb _ || negb _); [by intros [[=]|[]]|].
    destruct (extract_functions fs (src_path_of a)) as [e|fns]; [by intros [[=]|[]]|].
    cbn zeta.
    assert (¬ In (Echo (Some GREEN) m) (filter_warning a (selected a fns))) as Hwarn.
    { intros Hin. by apply filter_warning_yellow in Hin as [m' [=]]. }
    destruct (if os.path_exists fs (out_path_of a) then _ else _)
      as [e|[fs1 made]] eqn:Hout; cbn [fst snd].
    { intros Hin. by apply in_app_or in Hin as [Hin|[[=]|[]]]. }
    assert (¬ In (Echo (Some GREEN) m) made) as Hmade.
    { destruct (os.path_exists fs (out_path_of a)).
      - injection Hout as _ <-. intros [].
      - destruct (os.mkdir_parents [] fs (out_path_of a)); [done|].
        injection Hout as _ <-. by intros [[=]|[]]. }
    destruct (_ && _); cbn [fst snd].
    { intros Hin. apply in_app_or in Hin as [Hin|Hin]; [done|].
      by apply in_app_or in Hin as [Hin|[[=]|[]]]. }
    destruct (generate_test_content _ _) as [e|content]; cbn [fst snd].
    { intros Hin. by apply in_app_or in Hin as [Hin|Hin]. }
    destruct (os.write_text _ _ _ _) as [e|fs2]; cbn [fst snd]; intros Hin;
      apply in_app_or in Hin as [Hin|Hin]; try done;
      apply in_app_or in Hin as [Hin|Hin]; try done.
    - by destruct Hin as [[=]|[[=]|[]]].
    - destruct Hin as [[=]|[Heq|[]]]. by rewrite <- Heq. }
  split; [split|].
  - intros Hin. by apply Hgreen in Hin as [_ ?].
  - intros Hret.
    destruct (forge_write_result extract_functions generate_test_content cwd a fs)
      as [_ Hr | content r w _ _ _ | content e _ Hr _ _]; [done| |congruence].
    apply forge_essential_event; [done|].
    destruct (forge_quiet extract_functions generate_test_content cwd a fs)
      as (Hout & _ & _). rewrite Hout in Hret. revert Hret.
    rewrite forge_quiet_cases. unfold outcome, events.
    destruct (negb _ || negb _); [done|].
    destruct (extract_functions fs (src_path_of a)) as [e|fns]; [done|]. cbn zeta.
    destruct (if os.path_exists fs (out_path_of a) then _ else _)
      as [e|[fs1 made]] eqn:Hmk; cbn [fst snd].
    { done. }
    destruct (_ && _); [done|].
    destruct (generate_test_content _ _) as [e|content']; cbn [fst snd]; [done|].
    destruct (os.write_text _ _ _ _) as [e|fs2]; cbn [fst snd]; [done|]. intros _.
    apply in_or_app. right. apply in_or_app. right. right. by left.
  - intros m Hin. destruct (Hgreen m Hin) as [Heq Hret]. split; [done|].
    destruct (forge_write_result extract_functions generate_test_content cwd a fs)
      as [_ Hr | content r w Hw _ Hl | content e _ Hr _ _]; [done| |congruence].
    exists content, r, w. split; [|done].
    assert (In (WriteFile (test_file_path_of a) content None)
              (writes (events (forge a fs)))) as Hin'.
    { rewrite Hw. by left. }
    by apply filter_In in Hin' as [? _].
Qed.

End forge_endings.

(** ** Runs that reach the output directory *)
Section forge_output.

Import core cli.

Variable extract_functions : os.node → path → exception + list CallableDescriptor.
Variable generate_test_content : path → list CallableDescriptor → exception + string.
Variable cwd : path.

#[local] Abbreviation forge := (cli.forge extract_functions generate_test_content cwd).

Lemma writes_essential (evs : list event) : writes (essential evs) = writes evs.
Proof.
  unfold writes, essential. induction evs as [|[[c|] m | p e | p t e] evs IH]; cbn;
    by rewrite ?IH.
Qed.

(** Outcome, file system and writes of a run are those of the quiet
    run. *)
Lemma forge_via_quiet (a : forge_args) (fs : os.node) :
  outcome (forge a fs) = outcome (forge (quiet a) fs)
  ∧ final_fs (forge a fs) = final_fs (forge (quiet a) fs)
  ∧ writes (events (forge a fs)) = writes (events (forge (quiet a) fs)).
Proof.
  destruct (forge_quiet extract_functions generate_test_content cwd a fs)
    as (Hout & Hfs & Hev).
  split; [done|]. split; [done|]. by rewrite <- Hev, writes_essential.
Qed.

(** With [--overwrite], a writable test file that is already there is
    replaced by the newly generated text, and keeps its permissions. *)
Theorem forge_overwrite_replaces (a : forge_args) (fs : os.node)
    (functions : list CallableDescriptor) (content old : string) (readable : bool) :
  os.is_file fs (src_path_of a) = true →
  extract_functions fs (src_path_of a) = inr functions →
  generate_test_content (src_path_of a) (selected a functions) = inr content →
  overwrite a = true →
  os.lookup fs (test_file_path_of a) = Some (os.File readable true old) →
  outcome (forge a fs) = inr tt
  ∧ os.lookup (final_fs (forge a fs)) (test_file_path_of a)
    = Some (os.File readable true content)
  ∧ writes (events (forge a fs)) = [WriteFile (test_file_path_of a) content None].
Proof.
  intros Hfile Hfns Hgen Hover Hdest.
  assert (os.path_exists fs (test_file_path_of a) = true) as Hex
    by (unfold os.path_exists; by rewrite Hdest).
  assert (os.path_exists fs (out_path_of a) = true) as Hout
    by apply (path_exists_prefix _ _ [test_filename_of a] Hex).
  destruct (write_text_existing [] fs (test_file_path_of a) content old readable Hdest)
    as (fs2 & Hw & Hl).
  destruct (forge_via_quiet a fs) as (-> & -> & ->).
  rewrite forge_quiet_cases, Hfile, (is_file_exists _ _ Hfile), Hfns. cbn.
  rewrite Hout, Hex, Hover, Hgen, Hw. cbn. repeat split; [done|].
  by rewrite !writes_app, writes_filter_warning.
Qed.

(** When the output directory is given relative to the working directory
    and without [..], and making it fails because a directory on the way
    cannot be written to or a regular file is in the way, the error is not
    caught: the run ends with that exception (exit status 1), prints no
    error message of its own and does not attempt to write the test
    file. *)
Theorem forge_mkdir_error (a : forge_args) (fs : os.node)
    (functions : list CallableDescriptor) (e : exception) :
  plain_output a = true →
  os.is_file fs (src_path_of a) = true →
  extract_functions fs (src_path_of a) = inr functions →
  os.path_exists fs (out_path_of a) = false →
  os.mkdir_parents [] fs (out_path_of a) = inl e →
  outcome (forge a fs) = inl e
  ∧ exit_status (outcome (forge a fs)) = 1%Z
  ∧ (∃ filename, e = OSError PermissionError filename
                 ∨ e = OSError NotADirectoryError filename)
  ∧ writes (events (forge a fs)) = []
  ∧ In (Mkdir (out_path_of a) (Some e)) (events (forge a fs))
  ∧ ∀ m, ¬ In (Echo (Some RED) m) (events (forge a fs)).
Proof.
  intros _ Hfile Hfns Hout Hmk.
  assert (∃ filename, e = OSError PermissionError filename
                      ∨ e = OSError NotADirectoryError filename) as Hkind.
  { apply (mkdir_parents_error_kind [] fs (out_path_of a)); [|done].
    unfold os.path_exists in Hout. by destruct (os.lookup fs (out_path_of a)). }
  assert (∀ ev, is_plain_echo ev = false →
                In ev (events (forge a fs)) ↔ In ev (events (forge (quiet a) fs))) as Hev.
  { intros ev. apply forge_essential_event. }
  destruct (forge_via_quiet a fs) as (-> & _ & ->).
  rewrite (Hev (Mkdir (out_path_of a) (Some e)) eq_refl).
  setoid_rewrite (fun m => Hev (Echo (Some RED) m) eq_refl). clear Hev.
  rewrite forge_quiet_cases, Hfile, (is_file_exists _ _ Hfile), Hfns. cbn.
  rewrite Hout, Hmk. cbn.
  destruct (exit_status_IOError e (mkdir_parents_error _ _ _ _ Hmk)) as [Hst _].
  split; [done|]. split; [done|]. split; [exact Hkind|].
  split; [by rewrite writes_app, writes_filter_warning|].
  split; [apply in_or_app; right; by left|].
  intros m Hin. apply in_app_or in Hin as [Hin|[[=]|[]]].
  by apply filter_warning_yellow in Hin as [m' [=]].
Qed.

(** When the output directory is not there and can be made, the run
    makes it and writes the test file into it, whether or not an overwrite
    directive is given. *)
Theorem forge_fresh_directory (a : forge_args) (fs fs1 : os.node)
    (functions : list CallableDescriptor) (content : string) :
  os.is_file fs (src_path_of a) = true →
  extract_functions fs (src_path_of a) = inr functions →
  generate_test_content (src_path_of a) (selected a functions) = inr content →
  os.path_exists fs (out_path_of a) = false →
  os.mkdir_parents [] fs (out_path_of a) = inr fs1 →
  outcome (forge a fs) = inr tt
  ∧ os.lookup (final_fs (forge a fs)) (test_file_path_of a)
    = Some (os.File true true content)
  ∧ writes (events (forge a fs)) = [WriteFile (test_file_path_of a) content None]
  ∧ os.write_text [] fs1 (test_file_path_of a) content = inr (final_fs (forge a fs)).
Proof.
  intros Hfile Hfns Hgen Hout Hmk.
  assert (os.lookup fs1 (out_path_of a) = Some (os.Dir true ∅)) as Hdir.
  { apply (mkdir_parents_fresh [] fs); [|done].
    unfold os.path_exists in Hout. by destruct (os.lookup fs (out_path_of a)). }
  assert (os.path_exists fs1 (test_file_path_of a) = false) as Hfree.
  { unfold os.path_exists, test_file_path_of, pathlib.div.
    rewrite lookup_app, Hdir. cbn. by rewrite lookup_empty. }
  destruct (write_text_new [] fs1 (out_path_of a) (test_filename_of a) content ∅ Hdir)
    as (fs2 & Hw & Hl); [apply lookup_empty|].
  change (out_path_of a ++ [test_filename_of a]) with (test_file_path_of a) in Hw, Hl.
  destruct (forge_via_quiet a fs) as (-> & -> & ->).
  rewrite forge_quiet_cases, Hfile, (is_file_exists _ _ Hfile), Hfns. cbn.
  rewrite Hout, Hmk, Hfree. cbn [andb]. rewrite Hgen, Hw. cbn.
  repeat split; [done|]. by rewrite !writes_app, writes_filter_warning.
Qed.

(** When [--output] names a regular file, nothing can be written below
    it: the run prints the "not a directory" error and exits with status
    1, and the file system stays as it was. *)
Theorem forge_output_is_file (a : forge_args) (fs : os.node)
    (functions : list CallableDescriptor) (content : string) :
  os.is_file fs (src_path_of a) = true →
  extract_functions fs (src_path_of a) = inr functions →
  generate_test_content (src_path_of a) (selected a functions) = inr content →
  os.is_file fs (out_path_of a) = true →
  outcome (forge a fs) = inl (Exit 1)
  ∧ final_fs (forge a fs) = fs
  ∧ In (Echo (Some RED)
          ("Error writing file: "
           +:+ str (OSError NotADirectoryError
                      (pathlib.path_str (test_file_path_of a)))))
       (events (forge a fs))
  ∧ writes (events (forge a fs))
    = [WriteFile (test_file_path_of a) content
         (Some (OSError NotADirectoryError (pathlib.path_str (test_file_path_of a))))].
Proof.
  intros Hfile Hfns Hgen Hout.
  assert (∃ r w t, os.lookup fs (out_path_of a) = Some (os.File r w t))
    as (r & w & t & Hl).
  { unfold os.is_file in Hout.
    destruct (os.lookup fs (out_path_of a)) as [[r w t|w es]|]; [eauto|done..]. }
  assert (os.path_exists fs (test_file_path_of a) = false) as Hfree.
  { unfold os.path_exists, test_file_path_of, pathlib.div. by rewrite lookup_app, Hl. }
  pose proof (write_text_below_file [] fs (out_path_of a) (test_filename_of a)
                content r w t Hl) as Hw.
  change ([] ++ out_path_of a ++ [test_filename_of a]) with (test_file_path_of a) in Hw.
  change (out_path_of a ++ [test_filename_of a]) with (test_file_path_of a) in Hw.
  rewrite (forge_essential_event extract_functions generate_test_content cwd a fs);
    [|done].
  destruct (forge_via_quiet a fs) as (-> & -> & ->).
  rewrite forge_quiet_cases, Hfile, (is_file_exists _ _ Hfile), Hfns. cbn.
  rewrite (is_file_exists _ _ Hout), Hfree. cbn [andb]. rewrite Hgen, Hw. cbn.
  split; [done|]. split; [done|].
  split; [apply in_or_app; right; right; by left|].
  by rewrite !writes_app, writes_filter_warning.
Qed.

End forge_output.

(** ** Running the command again *)
Section forge_again.

Import core cli.

Variable extract_functions : os.node → path → exception + list CallableDescriptor.
Variable generate_test_content : path → list CallableDescriptor → exception + string.
Variable cwd : path.

#[local] Abbreviation forge := (cli.forge extract_functions generate_test_content cwd).

(** What a run that returned has gone through. *)
Lemma forge_returned_inv (a : forge_args) (fs : os.node) :
  outcome (forge a fs) = inr tt →
  ∃ functions content fs1,
    os.is_file fs (src_path_of a) = true
    ∧ extract_functions fs (src_path_of a) = inr functions
    ∧ generate_test_content (src_path_of a) (selected a functions) = inr content
    ∧ os.write_text [] fs1 (test_file_path_of a) content = inr (final_fs (forge a fs)).
Proof.
  destruct (forge_via_quiet extract_functions generate_test_content cwd a fs)
    as (-> & -> & _).
  rewrite forge_quiet_cases. unfold outcome, final_fs.
  destruct (os.is_file fs (src_path_of a)); cbn [negb]; [|by rewrite orb_true_r].
  destruct (negb _ || false); [done|].
  destruct (extract_functions fs (src_path_of a)) as [e|fns] eqn:Hfns; [done|]. cbn zeta.
  destruct (if os.path_exists fs (out_path_of a) then _ else _) as [e|[fs1 made]];
    [done|].
  destruct (_ && _); [done|].
  destruct (generate_test_content _ _) as [e|content] eqn:Hgen; [done|].
  destruct (os.write_text [] fs1 (test_file_path_of a) content) as [e|fs2] eqn:Hw;
    [done|].
  intros _. by exists fns, content, fs1.
Qed.

(** After a run that returned, the source is still a file and the test
    file and its directory are there. *)
Lemma forge_returned_state (a : forge_args) (fs : os.node) :
  outcome (forge a fs) = inr tt →
  os.is_file (final_fs (forge a fs)) (src_path_of a) = true
  ∧ os.path_exists (final_fs (forge a fs)) (test_file_path_of a) = true
  ∧ os.path_exists (final_fs (forge a fs)) (out_path_of a) = true.
Proof.
  intros Hret.
  destruct (forge_returned_inv a fs Hret) as (fns & content & fs1 & Hfile & _ & _ & Hw).
  assert (os.path_exists (final_fs (forge a fs)) (test_file_path_of a) = true) as Hdest.
  { destruct (write_text_lookup _ _ _ _ _ Hw) as (r & w & Hl).
    unfold os.path_exists. by rewrite Hl. }
  split; [|split; [done|]].
  - unfold os.is_file in Hfile |- *.
    destruct (os.lookup fs (src_path_of a)) as [[r w t|w es]|] eqn:Hl; [|done..].
    rewrite (forge_fs_invariant extract_functions generate_test_content cwd
               (fun n => os.lookup n (src_path_of a) = Some (os.File r w t)) a fs);
      [done..| |].
    + intros n n' Hn Hm. by apply (mkdir_parents_file _ _ _ _ _ _ _ _ Hm).
    + intros n n' text Hn Hw'.
      apply (write_text_file_other _ _ _ _ _ _ _ _ _ Hw'); [|done].
      apply test_file_path_ne_src.
  - by apply (path_exists_prefix _ _ [test_filename_of a]).
Qed.

(** A second run without [--overwrite], on what a first run that returned
    has left, skips: it exits with status 0, writes nothing and leaves the
    file the first run wrote as it is. *)
Theorem forge_second_run_skips (a : forge_args) (fs : os.node)
    (functions : list CallableDescriptor) :
  outcome (forge a fs) = inr tt →
  overwrite a = false →
  extract_functions (final_fs (forge a fs)) (src_path_of a) = inr functions →
  outcome (forge a (final_fs (forge a fs))) = inl (Exit 0)
  ∧ final_fs (forge a (final_fs (forge a fs))) = final_fs (forge a fs)
  ∧ writes (events (forge a (final_fs (forge a fs)))) = [].
Proof.
  intros Hret Hover Hfns.
  destruct (forge_returned_state a fs Hret) as (Hfile & Hdest & Hout).
  set (fs' := final_fs (forge a fs)) in *. clearbody fs'.
  destruct (forge_via_quiet extract_functions generate_test_content cwd a fs')
    as (-> & -> & ->).
  rewrite forge_quiet_cases, Hfile, (is_file_exists _ _ Hfile), Hfns. cbn.
  rewrite Hout, Hdest, Hover. cbn. repeat split.
  by rewrite !writes_app, writes_filter_warning.
Qed.

(** A second run with [--overwrite], when the analysis of the source
    gives what it gave before, returns again and leaves the file system
    exactly as the first run left it. *)
Theorem forge_overwrite_twice (a : forge_args) (fs : os.node) :
  outcome (forge a fs) = inr tt →
  overwrite a = true →
  extract_functions (final_fs (forge a fs)) (src_path_of a)
  = extract_functions fs (src_path_of a) →
  outcome (forge a (final_fs (forge a fs))) = inr tt
  ∧ final_fs (forge a (final_fs (forge a fs))) = final_fs (forge a fs).
Proof.
  intros Hret Hover Hsame.
  destruct (forge_returned_state a fs Hret) as (Hfile & Hdest & Hout).
  destruct (forge_returned_inv a fs Hret) as (fns & content & fs1 & _ & Hfns & Hgen & Hw).
  rewrite <- Hsame in Hfns.
  set (fs' := final_fs (forge a fs)) in *. clearbody fs'.
  destruct (forge_via_quiet extract_functions generate_test_content cwd a fs')
    as (-> & -> & _).
  rewrite forge_quiet_cases, Hfile, (is_file_exists _ _ Hfile), Hfns. cbn.
  rewrite Hout, Hdest, Hover, Hgen. cbn.
  by rewrite (write_text_again [] [] _ _ _ _ Hw).
Qed.

(** The text a run writes is what the generator returned for the
    descriptors kept from the analysis of the source: all of them when no
    name, or the empty name, is asked for, and else exactly those of that
    name. *)
Theorem forge_writes_generated_text (a : forge_args) (fs : os.node) (p : path)
    (content : string) (err : option exception) :
  In (WriteFile p content err) (events (forge a fs)) →
  ∃ functions,
    extract_functions fs (src_path_of a) = inr functions
    ∧ generate_test_content (src_path_of a) (selected a functions) = inr content
    ∧ (truthy (function_name a) = false → selected a functions = functions)
    ∧ (∀ fname, function_name a = Some fname → fname ≠ "" →
         ∀ f, In f (selected a functions) ↔ In f functions ∧ name f = fname).
Proof.
  intros Hin.
  destruct (forge_content extract_functions generate_test_content cwd a fs p content
              err Hin) as (fns & Hfns & Hgen).
  exists fns. split; [done|]. split; [done|]. unfold selected. split.
  - by intros ->.
  - intros fname Hname Hne f. unfold truthy. rewrite Hname. cbn.
    assert (String.eqb fname "" = false) as -> by by apply String.eqb_neq.
    cbn. rewrite filter_In, String.eqb_eq. tauto.
Qed.

End forge_again.

(** ** The version command *)
Section version_facts.

Import cli.

(** The version command prints its three lines and returns, whatever the
    file system is and leaving it as it is; when the package version
    cannot be imported, the first line shows the fallback [0.1.0-dev]. *)
Theorem version_prints (package_version : option string) (fs : os.node) :
  version package_version fs
  = (inr tt, fs,
     [Echo None ("pytest-forger v" +:+ get_version package_version);
      Echo None "https://github.com/daryll/pytest-forger";
      Echo None "MIT License (c) 2025 Daryll Lorenzo Alfonso"])
  ∧ exit_status (outcome (version package_version fs)) = 0%Z
  ∧ (package_version = None →
     events (version None fs) !! 0 = Some (Echo None "pytest-forger v0.1.0-dev"))
  ∧ (∀ v, package_version = Some v → get_version package_version = v).
Proof.
  split; [reflexivity|]. split; [reflexivity|]. split; [reflexivity|].
  by intros v ->.
Qed.

End version_facts.

(** ** What a verbose run reports *)
Section forge_report.

Import core cli.

Variable extract_functions : os.node → path → exception + list CallableDescriptor.
Variable generate_test_content : path → list CallableDescriptor → exception + string.
Variable cwd : path.

#[local] Abbreviation forge := (cli.forge extract_functions generate_test_content cwd).

(** A verbose run that returns starts with the absolute path of the
    source, reports the number of descriptors kept, and ends, after the
    success message, with the names of exactly the kept descriptors, in
    their order. *)
Theorem forge_verbose_listing (a : forge_args) (fs : os.node) :
  verbose a = true →
  outcome (forge a fs) = inr tt →
  ∃ functions middle,
    extract_functions fs (src_path_of a) = inr functions
    ∧ events (forge a fs)
      = Echo None ("Analyzing source file: " +:+ pathlib.absolute cwd (src_path_of a))
        :: middle
        ++ success_message a
        :: Echo None "Generated tests for:"
        :: ((fun f => Echo None ("   - " +:+ name f)) <$> selected a functions)
    ∧ In (Echo None ("Found " +:+ pretty (length (selected a functions))
                     +:+ " functions/methods to test.")) middle.
Proof.
  intros Hv. rewrite forge_cases_eq.
  unfold cli.forge_cases, cli.output_cases, announce, found_message, created_message,
    listing, outcome, events. rewrite Hv.
  destruct (negb _ || negb _); [done|].
  destruct (extract_functions fs (src_path_of a)) as [e|fns]; [done|]. cbn zeta.
  destruct (if os.path_exists fs (out_path_of a) then _ else _) as [e|[fs1 made]];
    [done|].
  destruct (_ && _); [done|].
  destruct (generate_test_content _ _) as [e|content]; [done|].
  destruct (os.write_text [] fs1 (test_file_path_of a) content) as [e|fs2]; [done|].
  intros _. exists fns.
  exists (filter_warning a (selected a fns)
          ++ Echo None ("Found " +:+ pretty (length (selected a fns))
                        +:+ " functions/methods to test.")
          :: made ++ [WriteFile (test_file_path_of a) content None]).
  split; [done|]. cbn [fst snd]. split.
  - cbn [app]. f_equal. rewrite <- !app_assoc. cbn [app]. do 2 f_equal.
    by rewrite <- app_assoc.
  - apply in_or_app. right. by left.
Qed.

End forge_report.

(** ** The further properties on the sample projects *)

(** The sample generator raises nothing, so the first run on a fresh
    project ends with status 0 or 1. *)
Lemma forge_exit_status_witness :
  cli.exit_status (cli.outcome (samples.sample_forge samples.forge_m samples.fs_project))
  = 0%Z
  ∨ cli.exit_status (cli.outcome (samples.sample_forge samples.forge_m samples.fs_project))
    = 1%Z.
Proof.
  apply (forge_exit_status samples.sample_extract samples.sample_generate
           ["home"; "user"; "project"] samples.forge_m samples.fs_project).
  intros p ds c. discriminate.
Defined.

(** Overwriting the old test file of a project forged before. *)
Lemma forge_overwrite_replaces_witness :
  os.lookup
    (cli.final_fs (samples.sample_forge samples.forge_m_overwrite samples.fs_forged))
    ["tests"; "test_m.py"]
  = Some (samples.file
            (core.generate_test_content ["m.py"]
               (core.visit_module samples.two_functions_tree))).
Proof.
  apply (forge_overwrite_replaces samples.sample_extract samples.sample_generate
           ["home"; "user"; "project"] samples.forge_m_overwrite samples.fs_forged
           (core.visit_module samples.two_functions_tree)
           (core.generate_test_content ["m.py"]
              (core.visit_module samples.two_functions_tree))
           "old" true); vm_compute; reflexivity.
Defined.

(** The project directory is read-only: [tests] cannot be made. *)
Lemma forge_mkdir_error_witness :
  cli.outcome (samples.sample_forge samples.forge_m samples.fs_readonly_root)
  = inl (OSError PermissionError "tests").
Proof.
  apply (forge_mkdir_error samples.sample_extract samples.sample_generate
           ["home"; "user"; "project"] samples.forge_m samples.fs_readonly_root
           (core.visit_module samples.two_functions_tree)
           (OSError PermissionError "tests")); vm_compute; reflexivity.
Defined.

(** A fresh project: [tests] is made and [tests/test_m.py] written. *)
Lemma forge_fresh_directory_witness :
  cli.outcome (samples.sample_forge samples.forge_m samples.fs_project) = inr tt.
Proof.
  eapply (forge_fresh_directory samples.sample_extract samples.sample_generate
            ["home"; "user"; "project"] samples.forge_m samples.fs_project _
            (core.visit_module samples.two_functions_tree)
            (core.generate_test_content ["m.py"]
               (core.visit_module samples.two_functions_tree)));
    vm_compute; reflexivity.
Defined.

(** [--output m.py], where [m.py] is the source file itself. *)
Lemma forge_output_is_file_witness :
  cli.outcome (samples.sample_forge samples.forge_m_into_file samples.fs_project)
  = inl (Exit 1).
Proof.
  apply (forge_output_is_file samples.sample_extract samples.sample_generate
           ["home"; "user"; "project"] samples.forge_m_into_file samples.fs_project
           (core.visit_module samples.two_functions_tree)
           (core.generate_test_content ["m.py"]
              (core.visit_module samples.two_functions_tree)));
    vm_compute; reflexivity.
Defined.

(** Forging a fresh project twice: the second run skips. *)
Lemma forge_second_run_skips_witness :
  cli.outcome
    (samples.sample_forge samples.forge_m
       (cli.final_fs (samples.sample_forge samples.forge_m samples.fs_project)))
  = inl (Exit 0).
Proof.
  apply (forge_second_run_skips samples.sample_extract samples.sample_generate
           ["home"; "user"; "project"] samples.forge_m samples.fs_project
           (core.visit_module samples.two_functions_tree)); vm_compute; reflexivity.
Defined.

(** Forging a fresh project twice with [--overwrite]. *)
Lemma forge_overwrite_twice_witness :
  cli.final_fs
    (samples.sample_forge samples.forge_m_overwrite
       (cli.final_fs (samples.sample_forge samples.forge_m_overwrite samples.fs_project)))
  = cli.final_fs (samples.sample_forge samples.forge_m_overwrite samples.fs_project).
Proof.
  apply (forge_overwrite_twice samples.sample_extract samples.sample_generate
           ["home"; "user"; "project"] samples.forge_m_overwrite samples.fs_project);
    vm_compute; reflexivity.
Defined.

(** With [--function alpha], the text written is the test for [alpha]
    alone. *)
Lemma forge_writes_generated_text_witness :
  ∃ functions,
    samples.sample_extract samples.fs_project ["m.py"] = inr functions
    ∧ samples.sample_generate ["m.py"] (cli.selected samples.forge_m_verbose functions)
      = inr (core.generate_test_content ["m.py"] [samples.named "alpha"]).
Proof.
  destruct (forge_writes_generated_text samples.sample_extract samples.sample_generate
              ["home"; "user"; "project"] samples.forge_m_verbose samples.fs_project
              ["tests"; "test_m.py"]
              (core.generate_test_content ["m.py"] [samples.named "alpha"]) None)
    as (fns & Hfns & Hgen & _).
  - vm_compute. tauto.
  - exists fns. split; [exact Hfns | exact Hgen].
Defined.

(** The verbose run on a fresh project with [--function alpha]. *)
Lemma forge_verbose_listing_witness :
  ∃ functions middle,
    cli.events (samples.sample_forge samples.forge_m_verbose samples.fs_project)
    = cli.Echo None "Analyzing source file: /home/user/project/m.py"
      :: middle
      ++ cli.success_message samples.forge_m_verbose
      :: cli.Echo None "Generated tests for:"
      :: ((fun f => cli.Echo None ("   - " +:+ core.name f))
            <$> cli.selected samples.forge_m_verbose functions).
Proof.
  destruct (forge_verbose_listing samples.sample_extract samples.sample_generate
              ["home"; "user"; "project"] samples.forge_m_verbose samples.fs_project)
    as (fns & middle & _ & Hev & _); [vm_compute; reflexivity..|].
  exists fns, middle. exact Hev.
Defined.
